(** * AI Convolution Dashboard: data layer, chart builder and query filter

    A shallow embedding of [streamlit_app.py].  Python values that come out
    of [json.load] are an inductive type, a raised exception is the [Raise]
    branch of an error monad, and the objects the program drives (the
    figure, the Streamlit cache, the file behind a path, the page) are
    explicit states that the functions pass along.  What the libraries
    decide is an input of the functions: the ISO-8601 parser, plotly's
    checks and its layout update, the widgets. *)

From Stdlib Require Import ZArith Lia Ascii String.
From stdpp Require Import base option list sorting strings gmap.

Set Warnings "-register-all".

Open Scope string_scope.
Open Scope list_scope.
Open Scope Z_scope.

(** ** Exceptions *)

Inductive exn : Type :=
| TypeError
| AttributeError
| KeyError
| IndexError
| ValueError
| JSONDecodeError.

Inductive result (A : Type) : Type :=
| Ok (a : A)
| Raise (e : exn).
Arguments Ok {A} a.
Arguments Raise {A} e.

#[global] Instance result_ret : MRet result := fun _ a => Ok a.
#[global] Instance result_bind : MBind result := fun _ _ f m =>
  match m with
  | Ok a => f a
  | Raise e => Raise e
  end.

Definition is_ok {A} (r : result A) : bool :=
  match r with Ok _ => true | Raise _ => false end.

(** ** Python values

    What [json.load] builds: [None], [bool], [int], [float], [str], [list]
    and [dict] with [str] keys.  A [float] is its IEEE-754 binary64 bit
    pattern.  A [dict] keeps its items in insertion order. *)

Inductive value : Type :=
| VNone
| VBool (b : bool)
| VInt (n : Z)
| VFloat (bits : Z)
| VStr (s : string)
| VList (elems : list value)
| VDict (items : list (string * value)).

(** Induction over values that reaches inside lists and dicts. *)
Section value_ind.
Variable P : value -> Prop.
Hypothesis HNone : P VNone.
Hypothesis HBool : forall b, P (VBool b).
Hypothesis HInt : forall n, P (VInt n).
Hypothesis HFloat : forall bits, P (VFloat bits).
Hypothesis HStr : forall s, P (VStr s).
Hypothesis HList : forall l, Forall P l -> P (VList l).
Hypothesis HDict : forall d, Forall (fun kv => P (snd kv)) d -> P (VDict d).

Fixpoint value_nested_ind (v : value) : P v :=
  match v with
  | VNone => HNone
  | VBool b => HBool b
  | VInt n => HInt n
  | VFloat bits => HFloat bits
  | VStr s => HStr s
  | VList l =>
      HList l ((fix go (l : list value) : Forall P l :=
                  match l with
                  | [] => ListDef.Forall_nil P
                  | x :: l' => ListDef.Forall_cons P x l' (value_nested_ind x) (go l')
                  end) l)
  | VDict d =>
      HDict d ((fix go (d : list (string * value))
                 : Forall (fun kv => P (snd kv)) d :=
                  match d with
                  | [] => ListDef.Forall_nil _
                  | kv :: d' =>
                      ListDef.Forall_cons (fun kv => P (snd kv)) kv d'
                        (value_nested_ind (snd kv)) (go d')
                  end) d)
  end.
End value_ind.

(** ** Dictionaries *)

Module Dict.
Definition t : Type := list (string * value).

(** [d[k]] as an option. *)
Fixpoint lookup (k : string) (d : t) : option value :=
  match d with
  | [] => None
  | (k', v) :: d' => if String.eqb k k' then Some v else lookup k d'
  end.

(** [k in d]. *)
Definition mem (k : string) (d : t) : bool :=
  match lookup k d with Some _ => true | None => false end.

(** [d[k] = v]: a key already present keeps its position. *)
Fixpoint set (k : string) (v : value) (d : t) : t :=
  match d with
  | [] => [(k, v)]
  | (k', v') :: d' =>
      if String.eqb k k' then (k, v) :: d' else (k', v') :: set k v d'
  end.

Definition keys (d : t) : list string := map fst d.
End Dict.

(** [obj.get(key, default)]: only a dict has the method. *)
Definition get (obj : value) (key : string) (default : value) : result value :=
  match obj with
  | VDict d => Ok (match Dict.lookup key d with Some v => v | None => default end)
  | _ => Raise AttributeError
  end.

(** Truth value of an object ([not ts], [if not traces]). *)
Definition float_is_zero (bits : Z) : bool :=
  Z.land bits 0x7FFFFFFFFFFFFFFF =? 0.

Definition truthy (v : value) : bool :=
  match v with
  | VNone => false
  | VBool b => b
  | VInt n => negb (n =? 0)
  | VFloat bits => negb (float_is_zero bits)
  | VStr s => negb (String.eqb s "")
  | VList l => match l with [] => false | _ => true end
  | VDict d => match d with [] => false | _ => true end
  end.

(** ** Strings

    A string is the sequence of the bytes of its UTF-8 form.  The case
    mappings below are those of the ASCII letters and leave every other
    byte alone: they are [str.lower] and [str.capitalize] on ASCII text,
    which is where the properties that depend on them are stated. *)

(** [s.isascii()] *)
Definition is_ascii (s : string) : bool :=
  forallb (fun c => (nat_of_ascii c <? 128)%nat) (list_ascii_of_string s).

Definition lower_char (c : ascii) : ascii :=
  let n := nat_of_ascii c in
  if ((65 <=? n) && (n <=? 90))%nat then ascii_of_nat (n + 32) else c.

Definition upper_char (c : ascii) : ascii :=
  let n := nat_of_ascii c in
  if ((97 <=? n) && (n <=? 122))%nat then ascii_of_nat (n - 32) else c.

(** [s.lower()] *)
Fixpoint lower (s : string) : string :=
  match s with
  | EmptyString => EmptyString
  | String c s' => String (lower_char c) (lower s')
  end.

(** [s.capitalize()]: first character upper-cased, the rest lower-cased. *)
Definition capitalize (s : string) : string :=
  match s with
  | EmptyString => EmptyString
  | String c s' => String (upper_char c) (lower s')
  end.

(** [a in b] on two strings: [a] occurs in [b] as a contiguous run. *)
Fixpoint starts_with (a b : string) : bool :=
  match a, b with
  | EmptyString, _ => true
  | String _ _, EmptyString => false
  | String x a', String y b' => Ascii.eqb x y && starts_with a' b'
  end.

Fixpoint str_contains (a b : string) : bool :=
  starts_with a b ||
  match b with
  | EmptyString => false
  | String _ b' => str_contains a b'
  end.

(** The characters of a string, as iteration over a [str] yields them. *)
Fixpoint chars (s : string) : list value :=
  match s with
  | EmptyString => []
  | String c s' => VStr (String c EmptyString) :: chars s'
  end.

(** ** JSON documents

    The syntax tree of a JSON text.  An object is the sequence of its
    members as written, so a name may occur more than once.  A number is
    the [int] or the [float] that the decoder makes of the literal. *)

Inductive json : Type :=
| JNull
| JBool (b : bool)
| JInt (n : Z)
| JFloat (bits : Z)
| JString (s : string)
| JArray (elems : list json)
| JObject (members : list (string * json)).

(** [json.load]: objects become dicts, member by member, a later member
    with a name already seen replacing the earlier value. *)
Fixpoint of_json (j : json) : value :=
  match j with
  | JNull => VNone
  | JBool b => VBool b
  | JInt n => VInt n
  | JFloat bits => VFloat bits
  | JString s => VStr s
  | JArray l => VList (map of_json l)
  | JObject m =>
      VDict ((fix build (m : list (string * json)) (acc : Dict.t) : Dict.t :=
                match m with
                | [] => acc
                | (k, j') :: m' => build m' (Dict.set k (of_json j') acc)
                end) m [])
  end.

(** [json.dumps]: the tree whose text the encoder writes. *)
Fixpoint to_json (v : value) : json :=
  match v with
  | VNone => JNull
  | VBool b => JBool b
  | VInt n => JInt n
  | VFloat bits => JFloat bits
  | VStr s => JString s
  | VList l => JArray (map to_json l)
  | VDict d =>
      JObject ((fix members (d : Dict.t) : list (string * json) :=
                  match d with
                  | [] => []
                  | (k, v') :: d' => (k, to_json v') :: members d'
                  end) d)
  end.

(** Induction over documents that reaches inside arrays and objects. *)
Section json_ind.
Variable P : json -> Prop.
Hypothesis HNull : P JNull.
Hypothesis HBool : forall b, P (JBool b).
Hypothesis HInt : forall n, P (JInt n).
Hypothesis HFloat : forall bits, P (JFloat bits).
Hypothesis HString : forall s, P (JString s).
Hypothesis HArray : forall l, Forall P l -> P (JArray l).
Hypothesis HObject : forall m, Forall (fun kj => P (snd kj)) m -> P (JObject m).

Fixpoint json_nested_ind (j : json) : P j :=
  match j with
  | JNull => HNull
  | JBool b => HBool b
  | JInt n => HInt n
  | JFloat bits => HFloat bits
  | JString s => HString s
  | JArray l =>
      HArray l ((fix go (l : list json) : Forall P l :=
                   match l with
                   | [] => ListDef.Forall_nil P
                   | x :: l' => ListDef.Forall_cons P x l' (json_nested_ind x) (go l')
                   end) l)
  | JObject m =>
      HObject m ((fix go (m : list (string * json))
                    : Forall (fun kj => P (snd kj)) m :=
                    match m with
                    | [] => ListDef.Forall_nil _
                    | kj :: m' =>
                        ListDef.Forall_cons (fun kj => P (snd kj)) kj m'
                          (json_nested_ind (snd kj)) (go m')
                    end) m)
  end.
End json_ind.

(** ** datetime

    [wall] counts the microseconds from 0001-01-01T00:00:00 to the date and
    time the fields spell; [tzinfo] is the UTC offset in microseconds of an
    aware value and [None] for a naive one. *)

Record datetime : Type := Datetime { wall : Z; tzinfo : option Z }.

Definition datetime_min : datetime := {| wall := 0; tzinfo := None |}.
Definition timezone_utc : Z := 0.

(** [dt.replace(tzinfo=tz)] *)
Definition replace_tzinfo (dt : datetime) (tz : Z) : datetime :=
  {| wall := wall dt; tzinfo := Some tz |}.

(** The instant an aware datetime denotes; aware datetimes compare by it. *)
Definition instant (dt : datetime) : Z :=
  wall dt - match tzinfo dt with Some off => off | None => 0 end.

Definition is_aware (dt : datetime) : bool :=
  match tzinfo dt with Some _ => true | None => false end.

(** [a < b] between datetimes: mixing naive and aware is a TypeError. *)
Definition datetime_lt (a b : datetime) : result bool :=
  if Bool.eqb (is_aware a) (is_aware b) then Ok (instant a <? instant b)
  else Raise TypeError.

(** ** An ISO-8601 parser to run the examples

    [datetime.fromisoformat] belongs to the standard library; the functions
    of the program take it as a parameter [fromisoformat], [None] standing
    for a raised [ValueError].  [Iso.parse] reads the texts every version of
    the library reads the same way, [YYYY-MM-DD], [YYYY-MM-DDTHH:MM:SS] and
    the latter followed by [+HH:MM] or [-HH:MM], and rejects every other
    text; it stands for the library's parser in the concrete examples,
    whose timestamps have those shapes. *)

Module Iso.

Definition digit (c : ascii) : option Z :=
  let n := nat_of_ascii c in
  if ((48 <=? n) && (n <=? 57))%nat then Some (Z.of_nat (n - 48)) else None.

(** Reads exactly [n] decimal digits off the front of [s]. *)
Fixpoint number (n : nat) (acc : Z) (s : string) : option (Z * string) :=
  match n with
  | O => Some (acc, s)
  | S n' =>
      match s with
      | EmptyString => None
      | String c s' =>
          match digit c with
          | Some d => number n' (10 * acc + d) s'
          | None => None
          end
      end
  end.

(** Expects the character [c] at the front of [s]. *)
Definition expect (c : ascii) (s : string) : option string :=
  match s with
  | String c' s' => if Ascii.eqb c c' then Some s' else None
  | EmptyString => None
  end.

Definition is_leap (y : Z) : bool :=
  (y mod 4 =? 0) && (negb (y mod 100 =? 0) || (y mod 400 =? 0)).

Definition days_in_month (y m : Z) : Z :=
  if m =? 2 then (if is_leap y then 29 else 28)
  else if (m =? 4) || (m =? 6) || (m =? 9) || (m =? 11) then 30
  else 31.

Definition days_before_year (y : Z) : Z :=
  let y' := y - 1 in y' * 365 + y' / 4 - y' / 100 + y' / 400.

Fixpoint days_before_month (y : Z) (m : nat) : Z :=
  match m with
  | O => 0
  | S m' => days_before_month y m' + days_in_month y (Z.of_nat m)
  end.

(** Days from 0001-01-01 to the given date. *)
Definition days (y m d : Z) : Z :=
  days_before_year y + days_before_month y (Z.to_nat (m - 1)) + (d - 1).

Definition usec_per_sec : Z := 1000000.

Definition date (s : string) : option (Z * string) :=
  '(y, s) ← number 4 0 s;
  s ← expect "-" s;
  '(m, s) ← number 2 0 s;
  s ← expect "-" s;
  '(d, s) ← number 2 0 s;
  if (1 <=? y) && (1 <=? m) && (m <=? 12) && (1 <=? d) && (d <=? days_in_month y m)
  then Some (days y m d * 86400, s)
  else None.

Definition clock (s : string) : option (Z * string) :=
  '(h, s) ← number 2 0 s;
  s ← expect ":" s;
  '(m, s) ← number 2 0 s;
  s ← expect ":" s;
  '(sec, s) ← number 2 0 s;
  if (h <? 24) && (m <? 60) && (sec <? 60)
  then Some (h * 3600 + m * 60 + sec, s)
  else None.

Definition offset (s : string) : option (option Z) :=
  match s with
  | EmptyString => Some None
  | String c s' =>
      let sign := if Ascii.eqb c "+" then Some 1
                  else if Ascii.eqb c "-" then Some (-1) else None in
      sg ← sign;
      '(h, s') ← number 2 0 s';
      s' ← expect ":" s';
      '(m, s') ← number 2 0 s';
      match s' with
      | EmptyString =>
          if (h <? 24) && (m <? 60)
          then Some (Some (sg * (h * 3600 + m * 60) * usec_per_sec))
          else None
      | _ => None
      end
  end.

Definition parse (s : string) : option datetime :=
  '(d, s) ← date s;
  match s with
  | EmptyString => Some {| wall := d * usec_per_sec; tzinfo := None |}
  | String _ s =>
      '(t, s) ← clock s;
      tz ← offset s;
      Some {| wall := (d + t) * usec_per_sec; tzinfo := tz |}
  end.

End Iso.

(** ** Control flow shared by the functions below *)

(** [try: body except Exception: handler] *)
Definition try_except {A} (body : result A) (handler : result A) : result A :=
  match body with
  | Ok a => Ok a
  | Raise _ => handler
  end.

(** Applies [f] to the elements in order and stops at the first exception. *)
Fixpoint traverse {A B} (f : A -> result B) (l : list A) : result (list B) :=
  match l with
  | [] => Ok []
  | x :: l' => y ← f x; ys ← traverse f l'; Ok (y :: ys)
  end.

(** [[x for x in l if p(x)]] *)
Fixpoint comprehension {A} (p : A -> result bool) (l : list A) : result (list A) :=
  match l with
  | [] => Ok []
  | x :: l' =>
      b ← p x; r ← comprehension p l'; Ok (if b : bool then x :: r else r)
  end.

(** [for x in v]: what iterating over a value yields. *)
Definition iterate (v : value) : result (list value) :=
  match v with
  | VList l => Ok l
  | VStr s => Ok (chars s)
  | VDict d => Ok (map VStr (Dict.keys d))
  | _ => Raise TypeError
  end.

(** [key in r] for a string [key]: a key of a dict, a substring of a
    string, an element of a list. *)
Definition contains (key : string) (r : value) : result bool :=
  match r with
  | VDict d => Ok (Dict.mem key d)
  | VStr s => Ok (str_contains key s)
  | VList l =>
      Ok (existsb (fun x => match x with
                            | VStr s => String.eqb key s
                            | _ => false
                            end) l)
  | _ => Raise TypeError
  end.

(** ** [sorted(iterable, key=..., reverse=...)]

    The keys are computed first, element by element.  The sort is stable;
    with [reverse] the list is reversed before and after an ascending
    stable sort, which keeps equal keys in their original order.  Only
    [<] is used to compare keys. *)

Section Sorting.
Context {K A : Type}.
Variable lt : K -> K -> result bool.

Fixpoint insert (x : K * A) (l : list (K * A)) : result (list (K * A)) :=
  match l with
  | [] => Ok [x]
  | y :: l' =>
      b ← lt (fst y) (fst x);
      if b : bool then r ← insert x l'; Ok (y :: r) else Ok (x :: y :: l')
  end.

Fixpoint stable_sort (l : list (K * A)) : result (list (K * A)) :=
  match l with
  | [] => Ok []
  | x :: l' => s ← stable_sort l'; insert x s
  end.

Definition sorted (key : A -> result K) (reverse : bool) (l : list A)
  : result (list A) :=
  keys ← traverse key l;
  let decorated := zip keys l in
  s ← stable_sort (if reverse then rev decorated else decorated);
  Ok (map snd (if reverse then rev s else s)).
End Sorting.

(** ** Data layer *)

(** What is behind a path: nothing, or a text that is a JSON document or
    is not ([None]). *)
Inductive file : Type :=
| Missing
| Text (doc : option json).

Definition filesystem : Type := string -> file.

(** [if isinstance(raw_data, dict): raw_data = [raw_data]] *)
Definition normalize (raw_data : value) : value :=
  match raw_data with
  | VDict _ => VList [raw_data]
  | _ => raw_data
  end.

Section Program.
Variable fromisoformat : string -> option datetime.

Definition min_utc : datetime := replace_tzinfo datetime_min timezone_utc.

Definition parse_timestamp (entry : value) : result datetime :=
  ts ← get entry "timestamp" VNone;
  if negb (truthy ts) then Ok min_utc
  else
    try_except
      (dt ← match ts with
            | VStr s =>
                match fromisoformat s with
                | Some dt => Ok dt
                | None => Raise ValueError
                end
            | _ => Raise TypeError
            end;
       Ok (match tzinfo dt with
           | None => replace_tzinfo dt timezone_utc
           | Some _ => dt
           end))
      (Ok min_utc).

Definition load_results (fs : filesystem) (path : string) : result (list value) :=
  match fs path with
  | Missing => Ok []
  | Text None => Raise JSONDecodeError
  | Text (Some doc) =>
      let raw_data := of_json doc in
      let raw_data := normalize raw_data in
      elems ← iterate raw_data;
      results ← comprehension (contains "plot") elems;
      sorted datetime_lt parse_timestamp true results
  end.

(** The loader behind [st.cache_data]: the decorator keeps one result per
    value of the arguments, here the path, and a call whose path is in the
    cache returns the kept result without running the body.  A call that
    raises leaves the cache as it was. *)
Definition load_results_cached (fs : filesystem) (c : gmap string (list value))
    (path : string) : result (list value) * gmap string (list value) :=
  match c !! path with
  | Some r => (Ok r, c)
  | None =>
      match load_results fs path with
      | Ok r => (Ok r, <[path := r]> c)
      | Raise e => (Raise e, c)
      end
  end.

End Program.

(** ** Plot rendering layer

    The program builds the chart with plotly: [go.Figure()], the methods
    [add_bar], [add_scatter] and [add_pie], and [update_layout].  Plotly is
    a library the program calls; it checks every property it is given
    against its schema, raises on what it rejects and keeps what it accepts
    in its own form.  The program's functions take it as the interface
    [Plotly]. *)

(** A call of [add_bar], [add_scatter] or [add_pie] with its keyword
    arguments, and also the trace such a call leaves in the figure, with
    the properties as plotly keeps them. *)
Inductive trace : Type :=
| Bar (x y name marker text textposition : value)
| Scatter (x y mode name : value)
| Pie (labels values name textinfo : value).

Record Plotly : Type := {
  (** The trace an [add_*] call appends to the data of the figure, or the
      exception plotly raises on its arguments. *)
  make_trace : trace -> result trace;
  (** The layout of [go.Figure()]. *)
  figure_layout : Dict.t;
  (** [update_layout] on a layout with the given keyword arguments: the
      layout it leaves, or the exception plotly raises on the arguments. *)
  layout_update : Dict.t -> Dict.t -> result Dict.t
}.

Record Figure : Type := { fig_data : list trace; fig_layout : Dict.t }.

(** The float [0.5]. *)
Definition float_half : Z := 0x3FE0000000000000.

(** The keyword arguments of the first [update_layout] call. *)
Definition default_layout : Dict.t :=
  [ ("template", VStr "plotly_dark");
    ("margin", VDict [("l", VInt 40); ("r", VInt 40); ("t", VInt 60); ("b", VInt 40)]);
    ("title_x", VFloat float_half) ].

(** Unpacking a value into keyword arguments: it has to be a mapping. *)
Definition unpack (m : value) : result Dict.t :=
  match m with
  | VDict d => Ok d
  | _ => Raise TypeError
  end.

Fixpoint assoc {B} (k : string) (l : list (string * B)) : option B :=
  match l with
  | [] => None
  | (k', b) :: l' => if String.eqb k k' then Some b else assoc k l'
  end.

Fixpoint for_each {S X} (body : S -> X -> result S) (l : list X) (s : S) : result S :=
  match l with
  | [] => Ok s
  | x :: l' => s' ← body s x; for_each body l' s'
  end.

Section Plot.
Variable plotly : Plotly.

(** [go.Figure()] *)
Definition new_figure : Figure :=
  {| fig_data := []; fig_layout := figure_layout plotly |}.

(** [fig.add_bar(...)], [fig.add_scatter(...)], [fig.add_pie(...)] *)
Definition add_trace (fig : Figure) (t : trace) : result Figure :=
  kept ← make_trace plotly t;
  Ok {| fig_data := fig_data fig ++ [kept]; fig_layout := fig_layout fig |}.

Definition build_bar (fig : Figure) (trace : value) : result Figure :=
  x ← get trace "x" VNone;
  y ← get trace "y" VNone;
  name ← get trace "name" VNone;
  marker ← get trace "marker" (VDict []);
  text ← get trace "text" VNone;
  textposition ← get trace "textposition" (VStr "auto");
  add_trace fig (Bar x y name marker text textposition).

Definition build_line (fig : Figure) (trace : value) : result Figure :=
  x ← get trace "x" VNone;
  y ← get trace "y" VNone;
  name ← get trace "name" VNone;
  add_trace fig (Scatter x y (VStr "lines+markers") name).

Definition build_pie (fig : Figure) (trace : value) : result Figure :=
  labels ← get trace "labels" VNone;
  values ← get trace "values" VNone;
  name ← get trace "name" VNone;
  add_trace fig (Pie labels values name (VStr "percent+label")).

Definition builder : Type := Figure -> value -> result Figure.

Definition TRACE_BUILDERS : list (string * builder) :=
  [ ("bar", build_bar);
    ("line", build_line);
    ("scatter", build_line);
    ("pie", build_pie) ].

(** [TRACE_BUILDERS.get(k)]: the key is hashed first, and a list or a dict
    has no hash; no key of the table equals a value that is not a string. *)
Definition builders_get (k : value) : result (option builder) :=
  match k with
  | VStr s => Ok (assoc s TRACE_BUILDERS)
  | VList _ | VDict _ => Raise TypeError
  | _ => Ok None
  end.

(** [fig.update_layout] with the keyword arguments [kwargs]. *)
Definition update_layout (fig : Figure) (kwargs : Dict.t) : result Figure :=
  layout ← layout_update plotly (fig_layout fig) kwargs;
  Ok {| fig_data := fig_data fig; fig_layout := layout |}.

(** The body of the [for trace in ...] loop. *)
Definition add_one (fig : Figure) (trace : value) : result Figure :=
  trace_type ← get trace "type" VNone;
  b ← builders_get trace_type;
  match b with
  | Some build => build fig trace
  | None => Ok fig
  end.

Definition plotly_from_metadata (plot_spec : value) : result Figure :=
  let fig := new_figure in
  data ← get plot_spec "data" (VList []);
  traces ← iterate data;
  fig ← for_each add_one traces fig;
  fig ← update_layout fig default_layout;
  layout ← get plot_spec "layout" (VDict []);
  kwargs ← unpack layout;
  update_layout fig kwargs.

End Plot.

(** ** Plotly in the examples

    The concrete examples run with a lenient plotly, one that accepts what
    they give it and keeps it as given.  Its [update_layout] is plotly's on
    the properties the examples set, the margins and the position of the
    title: a mapping given for a property that holds a mapping is merged
    into it (plotly's [BaseFigure._perform_update] on a compound property),
    any other value replaces what was there, and [title_x] is the property
    [x] of [title].  It knows no schema and rejects nothing, so it stands
    for plotly only where plotly accepts what it is given. *)
Module Lenient.

Fixpoint update_property (new : value) (old : option value) {struct new} : value :=
  match new, old with
  | VDict upd, Some (VDict cur) =>
      VDict ((fix go (upd : Dict.t) (acc : Dict.t) : Dict.t :=
                match upd with
                | [] => acc
                | (k, v) :: upd' =>
                    go upd' (Dict.set k (update_property v (Dict.lookup k acc)) acc)
                end) upd cur)
  | _, _ => new
  end.

Fixpoint perform_update (upd : Dict.t) (cur : Dict.t) : Dict.t :=
  match upd with
  | [] => cur
  | (k, v) :: upd' =>
      perform_update upd' (Dict.set k (update_property v (Dict.lookup k cur)) cur)
  end.

(** The keyword [title_x] names the property [x] of [title]. *)
Definition keyword (kv : string * value) : string * value :=
  if String.eqb (fst kv) "title_x" then ("title", VDict [("x", snd kv)]) else kv.

Definition plotly : Plotly :=
  {| make_trace := Ok;
     figure_layout := [];
     layout_update := fun layout kwargs => Ok (perform_update (map keyword kwargs) layout) |}.

End Lenient.

(** [v[0]] *)
Definition first_item (v : value) : result value :=
  match v with
  | VList (x :: _) => Ok x
  | VList [] => Raise IndexError
  | VStr (String c _) => Ok (VStr (String c EmptyString))
  | VStr EmptyString => Raise IndexError
  | VDict _ => Raise KeyError
  | _ => Raise TypeError
  end.

(** [v.capitalize()], a method of strings only. *)
Definition capitalize_method (v : value) : result string :=
  match v with
  | VStr s => Ok (capitalize s)
  | _ => Raise AttributeError
  end.

Definition detect_chart_type (plot_spec : value) : result string :=
  traces ← get plot_spec "data" (VList []);
  if negb (truthy traces) then Ok "Unknown"
  else
    t ← first_item traces;
    ty ← get t "type" (VStr "Unknown");
    capitalize_method ty.

(** ** Sidebar layer *)

(** [v.lower()], a method of strings only. *)
Definition lower_method (v : value) : result string :=
  match v with
  | VStr s => Ok (lower s)
  | _ => Raise AttributeError
  end.

Definition enumerate {X} (l : list X) : list (nat * X) :=
  zip (seq 0 (length l)) l.

(** [queries] of [render_sidebar]. *)
Definition queries (results : list value) : result (list value) :=
  traverse (fun r => get r "query" (VStr "Unnamed Query")) results.

(** [filtered_indices] of [render_sidebar], for the text typed in the
    search box. *)
Definition filtered_indices (results : list value) (search_term : string)
  : result (list nat) :=
  qs ← queries results;
  if negb (String.eqb search_term "") then
    hits ← comprehension
             (fun iq : nat * value =>
                ql ← lower_method (snd iq);
                Ok (str_contains (lower search_term) ql))
             (enumerate qs);
    Ok (map fst hits)
  else Ok (seq 0 (length qs)).

(** [render_sidebar], with the two widgets as inputs: the text in the
    search box and the option the select box returns. *)
Definition render_sidebar (search_term : string) (selectbox : list nat -> nat)
    (results : list value) : result value :=
  match results with
  | [] => Ok (VDict [])
  | _ =>
      idx ← filtered_indices results search_term;
      match idx with
      | [] => Ok (VDict [])
      | _ =>
          match results !! selectbox idx with
          | Some r => Ok r
          | None => Raise IndexError
          end
      end
  end.

(** ** Download section *)

(** The document [render_download] offers: [json.dumps(results, indent=2)]. *)
Definition render_download (results : list value) : json :=
  to_json (VList results).

(** ** The page

    What a run of the script shows: the Streamlit calls it makes, in order,
    each with the container it writes to and its arguments.  A function
    that draws returns what it has shown together with its result; a raised
    exception leaves on the page what was shown before it. *)

(** [value[key]] for a string [key]. *)
Definition subscript (v : value) (key : string) : result value :=
  match v with
  | VDict d =>
      match Dict.lookup key d with
      | Some x => Ok x
      | None => Raise KeyError
      end
  | _ => Raise TypeError
  end.

(** [len(v)] *)
Definition len (v : value) : result nat :=
  match v with
  | VList l => Ok (length l)
  | VStr s => Ok (String.length s)
  | VDict d => Ok (length d)
  | _ => Raise TypeError
  end.

(** The part of [render_sidebar] that computes [filtered_indices] from
    [queries]. *)
Definition matching (qs : list value) (search_term : string) : result (list nat) :=
  if negb (String.eqb search_term "") then
    hits ← comprehension
             (fun iq : nat * value =>
                ql ← lower_method (snd iq);
                Ok (str_contains (lower search_term) ql))
             (enumerate qs);
    Ok (map fst hits)
  else Ok (seq 0 (length qs)).

Definition PLOT_FILE : string := "plots.json".

Module UI.

Inductive place : Type :=
| Page
| Sidebar
| Column (n : nat)
| Tab (n : nat).

Inductive element : Type :=
| Header (text : string)
| Subheader (body : value)
| Caption (text : string)
| Warning (text : string)
| Error (text : string)
| Code (raised : exn)
| Markdown (text : string)
| Metric (label : string) (body : value)
| Columns (n : nat)
| Tabs (labels : list string)
| TextInput (label : string)
| Selectbox (label : string) (options : list nat)
| PlotlyChart (fig : Figure)
| Json (body : value)
| DownloadButton (label : string) (data : json) (file_name mime : string).

Definition page : Type := list (place * element).

Definition ui (A : Type) : Type := page * result A.

#[global] Instance ui_ret : MRet ui := fun _ a => ([], Ok a).
#[global] Instance ui_bind : MBind ui := fun _ _ f m =>
  match m with
  | (shown, Ok a) => let '(more, r) := f a in (shown ++ more, r)
  | (shown, Raise e) => (shown, Raise e)
  end.

(** A call that writes [e] to the container [p]. *)
Definition show (p : place) (e : element) : ui unit := ([(p, e)], Ok tt).

(** A computation that shows nothing. *)
Definition run {A} (r : result A) : ui A := ([], r).

(** [with p: body]: what the body writes to the page goes to [p]. *)
Definition within {A} (p : place) (body : ui A) : ui A :=
  (map (fun pe : place * element =>
          (match fst pe with Page => p | q => q end, snd pe)) (fst body),
   snd body).

(** [st.metric(label, value)]: Streamlit shows a number, a string or
    [None], and raises [TypeError] on any other value. *)
Definition metric (p : place) (label : string) (v : value) : ui unit :=
  match v with
  | VList _ | VDict _ => run (Raise TypeError)
  | _ => show p (Metric label v)
  end.

Section Widgets.
Variable plotly : Plotly.
Variable fromisoformat : string -> option datetime.
(** [len(set(queries))], the interpreter's count of distinct values. *)
Variable distinct : list value -> result nat.
(** What the user typed in the search box. *)
Variable search_term : string.
(** The option the select box returns, one of those it is given. *)
Variable selectbox : list nat -> nat.

Definition render_sidebar (results : list value) : ui value :=
  show Sidebar (Header "📂 Query Explorer");;
  match results with
  | [] => show Sidebar (Warning "No plots available.");; mret (VDict [])
  | _ =>
      qs ← run (queries results);
      show Sidebar (TextInput "🔎 Search Query");;
      filtered_indices ← run (matching qs search_term);
      match filtered_indices with
      | [] => show Sidebar (Warning "No matches found.");; mret (VDict [])
      | _ =>
          show Sidebar (Selectbox "Select Query" filtered_indices);;
          let selected_index := selectbox filtered_indices in
          show Sidebar (Markdown "---");;
          metric Sidebar "Total Plots" (VInt (Z.of_nat (length results)));;
          unique ← run (distinct qs);
          metric Sidebar "Unique Queries" (VInt (Z.of_nat unique));;
          run (match results !! selected_index with
               | Some r => Ok r
               | None => Raise IndexError
               end)
      end
  end.

Definition render_header (result : value) : ui unit :=
  query ← run (get result "query" (VStr "Unnamed Query"));
  show Page (Subheader query);;
  show Page (Columns 3);;
  plot ← run (get result "plot" (VDict []));
  chart_type ← run (detect_chart_type plot);
  timestamp ← run (get result "timestamp" (VStr "N/A"));
  metric (Column 1) "Chart Type" (VStr chart_type);;
  metric (Column 2) "Generated At" timestamp;;
  plot ← run (get result "plot" (VDict []));
  data ← run (get plot "data" (VList []));
  traces ← run (len data);
  metric (Column 3) "Traces" (VInt (Z.of_nat traces));;
  show Page (Markdown "---").

Definition render_visualization (result : value) : ui unit :=
  match (plot ← subscript result "plot"; plotly_from_metadata plotly plot) with
  | Ok fig => show Page (PlotlyChart fig)
  | Raise e =>
      show Page (Error "Plot rendering failed.");;
      show Page (Code e)
  end.

Definition render_tabs (result : value) : ui unit :=
  show Page (Tabs ["📊 Visualization"; "📄 Metadata"; "🔍 JSON"]);;
  within (Tab 1) (render_visualization result);;
  within (Tab 2)
    (query ← run (get result "query" VNone);
     timestamp ← run (get result "timestamp" VNone);
     plot ← run (get result "plot" (VDict []));
     chart_type ← run (detect_chart_type plot);
     show Page (Json (VDict [("query", query); ("timestamp", timestamp);
                             ("chart_type", VStr chart_type)])));;
  within (Tab 3) (show Page (Json result)).

Definition render_download (results : list value) : ui unit :=
  show Page (DownloadButton "⬇ Download Full JSON" (render_download results)
               "ai_generated_plots.json" "application/json").

(** One run of [main], from the files and the cache it finds to the page
    it shows and the cache it leaves. *)
Definition main (fs : filesystem) (c : gmap string (list value))
  : ui unit * gmap string (list value) :=
  let loaded := load_results_cached fromisoformat fs c PLOT_FILE in
  (results ← run (fst loaded);
   if negb (truthy (VList results)) then
     show Page (Warning "No plot metadata found. Waiting for AI-generated plots.")
   else
     selected_result ← render_sidebar results;
     if negb (truthy selected_result) then mret tt
     else
       render_header selected_result;;
       render_tabs selected_result;;
       show Page (Markdown "---");;
       render_download results;;
       show Page (Caption "AI Convolution Dashboard — Visualization Layer"),
   snd loaded).

End Widgets.

End UI.

(** * Vocabulary of the specification

    The notions the properties below are stated with. *)

(** ** Chart builder *)

(** The field [k] of a trace, or [default] when the trace has none. *)
Definition field (t : Dict.t) (k : string) (default : value) : value :=
  match Dict.lookup k t with Some v => v | None => default end.

(** The rendering the specification gives each kind of trace. *)
Definition bar_of (t : Dict.t) : trace :=
  Bar (field t "x" VNone) (field t "y" VNone) (field t "name" VNone)
      (field t "marker" (VDict [])) (field t "text" VNone)
      (field t "textposition" (VStr "auto")).

Definition line_of (t : Dict.t) : trace :=
  Scatter (field t "x" VNone) (field t "y" VNone) (VStr "lines+markers")
          (field t "name" VNone).

Definition pie_of (t : Dict.t) : trace :=
  Pie (field t "labels" VNone) (field t "values" VNone) (field t "name" VNone)
      (VStr "percent+label").

(** The fixed dispatch mapping of the specification. *)
Definition dispatch (ty : string) : option (Dict.t -> trace) :=
  if String.eqb ty "bar" then Some bar_of
  else if String.eqb ty "line" then Some line_of
  else if String.eqb ty "scatter" then Some line_of
  else if String.eqb ty "pie" then Some pie_of
  else None.

(** What one trace contributes to the chart: one rendered trace when its
    [type] is in the mapping, nothing otherwise. *)
Definition contribution (t : Dict.t) : list trace :=
  match Dict.lookup "type" t with
  | Some (VStr ty) =>
      match dispatch ty with
      | Some render => [render t]
      | None => []
      end
  | _ => []
  end.

(** A [type] that can be looked up in the table: any value but a list or
    a dict, or no [type] at all. *)
Definition type_hashable (t : Dict.t) : Prop :=
  match Dict.lookup "type" t with
  | Some (VList _) | Some (VDict _) => False
  | _ => True
  end.

(** A plot specification as the data model has it: [data], when present,
    a list of traces that are mappings, and [layout], when present, a
    mapping. *)
Record plot_spec_shape (spec : Dict.t) (traces : list Dict.t) (layout : Dict.t)
  : Prop := {
  shape_data :
    Dict.lookup "data" spec = Some (VList (map VDict traces)) \/
    (Dict.lookup "data" spec = None /\ traces = []);
  shape_types : Forall type_hashable traces;
  shape_layout :
    Dict.lookup "layout" spec = Some (VDict layout) \/
    (Dict.lookup "layout" spec = None /\ layout = [])
}.

(** The chart the specification describes for the plotly calls [calls]
    and the caller's [layout]: the traces plotly makes of the calls, in
    order, and the layout it makes of the caller's on top of what it makes
    of the defaults; the first thing plotly rejects is the outcome. *)
Definition chart (plotly : Plotly) (calls : list trace) (layout : Dict.t)
  : result Figure :=
  kept ← traverse (make_trace plotly) calls;
  defaults ← layout_update plotly (figure_layout plotly) default_layout;
  final ← layout_update plotly defaults layout;
  Ok {| fig_data := kept; fig_layout := final |}.

(** ** Selection and filter layer *)

(** [a] occurs in [b]: some text before it and some after it make up [b]. *)
Definition substring (a b : string) : Prop :=
  exists pre post, b = String.append pre (String.append a post).

(** The text an entry is listed and searched under. *)
Definition displayed (d : Dict.t) : string :=
  match Dict.lookup "query" d with
  | Some (VStr q) => q
  | _ => "Unnamed Query"
  end.

(** The [query] of an entry, when it has one, is a string. *)
Definition query_is_text (d : Dict.t) : Prop :=
  match Dict.lookup "query" d with
  | Some (VStr _) | None => True
  | Some _ => False
  end.

(** The text an entry is listed under is ASCII. *)
Definition ascii_query (d : Dict.t) : Prop := is_ascii (displayed d) = true.

(** The condition of the comprehension on a text. *)
Definition hit (search_term : string) (v : value) : bool :=
  match v with
  | VStr t => str_contains (lower search_term) (lower t)
  | _ => false
  end.

(** ** Stable sorting by a rank

    The sort of [sorted] when no comparison raises: insertion by the
    integer rank of the elements. *)

Section SortBy.
Context {X : Type}.
Variable rank : X -> Z.

Fixpoint insert_by (x : X) (l : list X) : list X :=
  match l with
  | [] => [x]
  | y :: l' => if rank y <? rank x then y :: insert_by x l' else x :: y :: l'
  end.

Fixpoint sort_by (l : list X) : list X :=
  match l with
  | [] => []
  | x :: l' => insert_by x (sort_by l')
  end.

(** [sorted(l, reverse=True)] *)
Definition sort_descending (l : list X) : list X := rev (sort_by (rev l)).

Definition ascending (a b : X) : Prop := rank a <= rank b.
Definition descending (a b : X) : Prop := rank b <= rank a.

(** The elements of rank [k], in the order they have in [l]. *)
Definition of_rank (k : Z) (l : list X) : list X :=
  List.filter (fun x => rank x =? k) l.

End SortBy.

(** The keys [sorted] decorates the elements with. *)

Section Keys.
Context {A : Type}.

Definition key_rank (p : datetime * A) : Z := instant (fst p).
Definition key_aware (p : datetime * A) : Prop := is_aware (fst p) = true.

Variable key : A -> result datetime.

Definition key_or_min (x : A) : datetime :=
  match key x with Ok dt => dt | Raise _ => min_utc end.

(** The rank [sorted] orders an element by: the instant of its key. *)
Definition rank_of (x : A) : Z := instant (key_or_min x).

Definition has_aware_key (x : A) : Prop :=
  exists dt, key x = Ok dt /\ is_aware dt = true.

End Keys.

(** ** Result loader *)

(** Whether the loader keeps an element: ["plot" in r]. *)
Definition has_plot (v : value) : bool :=
  match contains "plot" v with Ok b => b | Raise _ => false end.

Definition is_dict (v : value) : Prop := exists d, v = VDict d.

(** The members of a JSON object, made into a dict on top of [acc]. *)
Fixpoint build_dict (m : list (string * json)) (acc : Dict.t) : Dict.t :=
  match m with
  | [] => acc
  | (k, j) :: m' => build_dict m' (Dict.set k (of_json j) acc)
  end.

(** An object has a member named [k]. *)
Definition member_named (k : string) (m : list (string * json)) : bool :=
  existsb (fun kv => String.eqb k (fst kv)) m.

(** The rank the loader orders an entry by. *)
Definition timestamp_rank (fromisoformat : string -> option datetime)
    (v : value) : Z :=
  rank_of (parse_timestamp fromisoformat) v.

(** The [timestamp] of an entry is missing, empty, not a string, or a
    string the parser rejects. *)
Definition timestamp_unusable (fromisoformat : string -> option datetime)
    (d : Dict.t) : Prop :=
  match Dict.lookup "timestamp" d with
  | Some (VStr s) => s = "" \/ fromisoformat s = None
  | _ => True
  end.

(** The [timestamp] of an entry is a string that parses to [dt]. *)
Definition timestamp_parses (fromisoformat : string -> option datetime)
    (d : Dict.t) (dt : datetime) : Prop :=
  exists s, Dict.lookup "timestamp" d = Some (VStr s) /\ s <> "" /\
            fromisoformat s = Some dt.

(** ** Export and reload *)

(** Every dict inside the value has each key once, as a dict has. *)
Inductive unique_keys : value -> Prop :=
| uk_none : unique_keys VNone
| uk_bool b : unique_keys (VBool b)
| uk_int n : unique_keys (VInt n)
| uk_float bits : unique_keys (VFloat bits)
| uk_str s : unique_keys (VStr s)
| uk_list l : Forall unique_keys l -> unique_keys (VList l)
| uk_dict d :
    NoDup (Dict.keys d) -> Forall (fun kv => unique_keys (snd kv)) d ->
    unique_keys (VDict d).

(** The members [json.dumps] writes for a dict. *)
Fixpoint members_of (d : Dict.t) : list (string * json) :=
  match d with
  | [] => []
  | (k, v) :: d' => (k, to_json v) :: members_of d'
  end.

(** ** Layout *)


(** The margins of the defaults. *)
Definition default_margin : Dict.t :=
  [("l", VInt 40); ("r", VInt 40); ("t", VInt 60); ("b", VInt 40)].


(** ** Cached loader *)

(** Every kept result is what a load of the file would return now. *)
Definition cache_fresh (fromisoformat : string -> option datetime)
    (fs : filesystem) (c : gmap string (list value)) : Prop :=
  forall path r, c !! path = Some r -> load_results fromisoformat fs path = Ok r.

(** ** Further vocabulary *)

(** An element of the document the loader gets past: a mapping, or a
    string or a list in which ["plot"] does not occur. *)
Definition loadable (v : value) : Prop :=
  match v with
  | VDict _ => True
  | VStr _ | VList _ => has_plot v = false
  | _ => False
  end.

(** A trace the chart builder renders. *)
Definition supported (t : Dict.t) : Prop :=
  exists ty,
    Dict.lookup "type" t = Some (VStr ty) /\
    In ty ["bar"; "line"; "scatter"; "pie"].

(** A trace the chart builder gets past: a mapping whose [type] can be
    looked up. *)
Definition trace_ok (v : value) : Prop :=
  exists t, v = VDict t /\ type_hashable t.

(** The select box returns one of the options it is given. *)
Definition picks_option (selectbox : list nat -> nat) : Prop :=
  forall options, options <> [] -> In (selectbox options) options.

(** Every index of [found'] is in [found]. *)
Definition forall_indices_found (found' found : list nat) : Prop :=
  forall i, In i found' -> In i found.

(** The [data] of a plot the header can be drawn for: empty (a list, a
    string or a mapping), or a list whose first trace is a mapping with a
    string for its [type], or with no [type]. *)
Definition header_data (data : value) : Prop :=
  match data with
  | VList [] | VStr EmptyString | VDict [] => True
  | VList (VDict t :: _) => exists ty, field t "type" (VStr "Unknown") = VStr ty
  | _ => False
  end.

(** A value [st.metric] shows: a number, a string or [None]. *)
Definition metric_value (v : value) : Prop :=
  match v with
  | VList _ | VDict _ => False
  | _ => True
  end.

(** An entry the header can be drawn for: a mapping whose [plot], or the
    empty mapping in its place, is a mapping with such a [data], the empty
    list standing for a [data] that is absent, and whose [timestamp], if
    it has one, is a value [st.metric] shows. *)
Definition drawable (r : value) : Prop :=
  exists d spec,
    r = VDict d /\ field d "plot" (VDict []) = VDict spec /\
    header_data (field spec "data" (VList [])) /\
    metric_value (field d "timestamp" (VStr "N/A")).

(** The count of distinct queries, for queries that are strings; any
    other value is outside this instance, which the examples run on. *)
Definition distinct_texts (qs : list value) : result nat :=
  texts ← traverse (fun v => match v with
                             | VStr s => Ok s
                             | _ => Raise TypeError
                             end) qs;
  Ok (length (List.nodup string_dec texts)).

(** The select box with nothing chosen yet: its first option. *)
Definition first_option (options : list nat) : nat := List.hd 0%nat options.

(** ** Documents of the examples *)

(** The input file of the specification's end-to-end example. *)
Definition revenue_document : json :=
  JArray
    [ JObject [("query", JString "Revenue Q1");
               ("timestamp", JString "2024-01-01T00:00:00");
               ("plot", JObject [("data", JArray [JObject [("type", JString "line")]])])];
      JObject [("query", JString "Revenue Q2");
               ("plot", JObject [("data", JArray [JObject [("type", JString "bar")]])])] ].

(** The document [[{"plot": {}}, {"timestamp": "0001-01-01T00:00:00",
    "plot": {}}]]. *)
Definition tie_document : json :=
  JArray [ JObject [("plot", JObject [])];
           JObject [("timestamp", JString "0001-01-01T00:00:00");
                    ("plot", JObject [])] ].

(** The file the generator writes after the dashboard first looked. *)
Definition one_plot : json := JArray [JObject [("plot", JObject [])]].

(** * Properties *)

(** ** The ISO-8601 parser of the examples *)

Example iso_parse_2024 :
  Iso.parse "2024-01-01T00:00:00"
  = Some {| wall := 738885 * 86400 * 1000000; tzinfo := None |}.
Proof. reflexivity. Qed.

Example iso_parse_min : Iso.parse "0001-01-01T00:00:00" = Some datetime_min.
Proof. reflexivity. Qed.

Example iso_parse_offset :
  Iso.parse "0001-01-01T00:00:00+05:00"
  = Some {| wall := 0; tzinfo := Some (5 * 3600 * 1000000) |}.
Proof. reflexivity. Qed.

Example iso_parse_garbage : Iso.parse "yesterday" = None.
Proof. reflexivity. Qed.

(** ** Reading a dict *)

Lemma get_dict (d : Dict.t) (key : string) (default : value) :
  get (VDict d) key default
  = Ok (match Dict.lookup key d with Some v => v | None => default end).
Proof. reflexivity. Qed.

Lemma bind_ok {A B} (a : A) (f : A -> result B) : (Ok a ≫= f) = f a.
Proof. reflexivity. Qed.

(** ** Timestamp parser *)

Section TimestampParser.
Variable fromisoformat : string -> option datetime.

Lemma min_utc_aware : is_aware min_utc = true.
Proof. reflexivity. Qed.

Lemma parse_timestamp_cases (d : Dict.t) :
  parse_timestamp fromisoformat (VDict d)
  = Ok (match Dict.lookup "timestamp" d with
        | Some (VStr s) =>
            if String.eqb s "" then min_utc
            else match fromisoformat s with
                 | Some dt =>
                     match tzinfo dt with
                     | None => replace_tzinfo dt timezone_utc
                     | Some _ => dt
                     end
                 | None => min_utc
                 end
        | _ => min_utc
        end).
Proof.
  unfold parse_timestamp. rewrite get_dict, bind_ok.
  destruct (Dict.lookup "timestamp" d) as [v|]; [|reflexivity].
  destruct v as [ | b | n | bits | s | l | items]; simpl.
  - reflexivity.
  - destruct b; reflexivity.
  - destruct (n =? 0); reflexivity.
  - destruct (float_is_zero bits); reflexivity.
  - destruct (String.eqb s ""); simpl; [reflexivity|].
    destruct (fromisoformat s) as [dt|]; reflexivity.
  - destruct l; reflexivity.
  - destruct items; reflexivity.
Qed.

Lemma parse_timestamp_aware (d : Dict.t) (dt : datetime) :
  parse_timestamp fromisoformat (VDict d) = Ok dt -> is_aware dt = true.
Proof.
  rewrite parse_timestamp_cases. intros [= <-].
  destruct (Dict.lookup "timestamp" d) as [[ | | | | s | | ]|]; try reflexivity.
  destruct (String.eqb s ""); [reflexivity|].
  destruct (fromisoformat s) as [dt|]; [|reflexivity].
  unfold is_aware. destruct (tzinfo dt) eqn:E; [rewrite E|]; reflexivity.
Qed.

(** C4.  On every entry (a mapping) the timestamp parser returns a value and
    raises nothing.  An absent or empty [timestamp] gives the minimum time
    in UTC; a string that parses to a value without a timezone gives that
    value with UTC as its timezone, one that parses with a timezone gives
    the value itself; a string that does not parse, and a field that is not
    a string, give the minimum time in UTC again. *)
Theorem parse_timestamp_never_raises (d : Dict.t) :
  (exists dt, parse_timestamp fromisoformat (VDict d) = Ok dt) /\
  (Dict.lookup "timestamp" d = None \/ Dict.lookup "timestamp" d = Some (VStr "") ->
   parse_timestamp fromisoformat (VDict d) = Ok min_utc) /\
  (forall s dt,
     Dict.lookup "timestamp" d = Some (VStr s) -> s <> "" ->
     fromisoformat s = Some dt ->
     parse_timestamp fromisoformat (VDict d)
     = Ok (match tzinfo dt with
           | None => {| wall := wall dt; tzinfo := Some timezone_utc |}
           | Some _ => dt
           end)) /\
  (forall s,
     Dict.lookup "timestamp" d = Some (VStr s) -> fromisoformat s = None ->
     parse_timestamp fromisoformat (VDict d) = Ok min_utc) /\
  (forall v,
     Dict.lookup "timestamp" d = Some v -> (forall s, v <> VStr s) ->
     parse_timestamp fromisoformat (VDict d) = Ok min_utc).
Proof.
  rewrite parse_timestamp_cases. repeat split.
  - eauto.
  - intros [-> | ->]; reflexivity.
  - intros s dt -> Hs ->. apply String.eqb_neq in Hs. rewrite Hs. reflexivity.
  - intros s -> ->. destruct (String.eqb s ""); reflexivity.
  - intros v -> Hv. destruct v; try reflexivity. destruct (Hv s eq_refl).
Qed.

End TimestampParser.

(** The minimum time in UTC is the instant zero of the model. *)
Lemma instant_min_utc : instant min_utc = 0.
Proof. reflexivity. Qed.

(** C4 at the entry [{"timestamp": "2024-01-01T00:00:00", "plot": {}}]. *)
Lemma parse_timestamp_never_raises_witness :
  parse_timestamp Iso.parse
    (VDict [("timestamp", VStr "2024-01-01T00:00:00"); ("plot", VDict [])])
  = Ok {| wall := 738885 * 86400 * 1000000; tzinfo := Some 0 |}.
Proof.
  exact (proj1 (proj2 (proj2
    (parse_timestamp_never_raises Iso.parse
       [("timestamp", VStr "2024-01-01T00:00:00"); ("plot", VDict [])])))
    "2024-01-01T00:00:00" _ eq_refl ltac:(discriminate) eq_refl).
Defined.

(** ** Chart-type detector *)

(** C6.  The detector returns the capitalized [type] of the first trace of
    [data], stated for a [type] that is ASCII text; it returns ["Unknown"]
    when [data] is absent or empty and when the first trace has no [type];
    on [{data: [{type: "pie"}]}] it returns ["Pie"].  A [type] that is not
    a string has no capitalized form: the detector raises
    [AttributeError]. *)
Theorem detect_chart_type_label (spec : Dict.t) :
  (Dict.lookup "data" spec = None \/ Dict.lookup "data" spec = Some (VList []) ->
   detect_chart_type (VDict spec) = Ok "Unknown") /\
  (forall t rest,
     Dict.lookup "data" spec = Some (VList (VDict t :: rest)) ->
     (Dict.lookup "type" t = None ->
      detect_chart_type (VDict spec) = Ok "Unknown") /\
     (forall ty,
        Dict.lookup "type" t = Some (VStr ty) ->
        is_ascii ty = true ->
        detect_chart_type (VDict spec) = Ok (capitalize ty)) /\
     (forall v,
        Dict.lookup "type" t = Some v ->
        (forall ty, v <> VStr ty) ->
        detect_chart_type (VDict spec) = Raise AttributeError)) /\
  detect_chart_type (VDict [("data", VList [VDict [("type", VStr "pie")]])])
  = Ok "Pie" /\
  detect_chart_type (VDict [("data", VList [VDict [("type", VStr "sCATTER")]])])
  = Ok "Scatter".
Proof.
  split; [|split; [|split; reflexivity]].
  - unfold detect_chart_type. rewrite get_dict, bind_ok.
    intros [-> | ->]; reflexivity.
  - intros t rest Hdata. unfold detect_chart_type.
    rewrite get_dict, bind_ok, Hdata. simpl. split; [|split].
    + intros ->. reflexivity.
    + intros ty -> _. reflexivity.
    + intros v -> Hv. destruct v as [ | | | | ty | | ]; try reflexivity.
      destruct (Hv ty eq_refl).
Qed.

(** ** Chart builder *)

Section ChartBuilder.
Variable plotly : Plotly.

Lemma build_bar_dict (fig : Figure) (t : Dict.t) :
  build_bar plotly fig (VDict t) = add_trace plotly fig (bar_of t).
Proof. reflexivity. Qed.

Lemma build_line_dict (fig : Figure) (t : Dict.t) :
  build_line plotly fig (VDict t) = add_trace plotly fig (line_of t).
Proof. reflexivity. Qed.

Lemma build_pie_dict (fig : Figure) (t : Dict.t) :
  build_pie plotly fig (VDict t) = add_trace plotly fig (pie_of t).
Proof. reflexivity. Qed.

Lemma for_each_one {S X} (body : S -> X -> result S) (x : X) (s : S) :
  for_each body [x] s = body s x.
Proof. cbn [for_each]. destruct (body s x); reflexivity. Qed.

Lemma for_each_app {S X} (body : S -> X -> result S) (l l' : list X) (s : S) :
  for_each body (l ++ l') s = (s' ← for_each body l s; for_each body l' s').
Proof.
  revert s. induction l as [|x l IH]; intros s; [reflexivity|].
  cbn [app for_each]. destruct (body s x) as [s1|e]; [|reflexivity].
  rewrite !bind_ok. apply IH.
Qed.

(** One turn of the loop makes the plotly calls of the trace. *)
Lemma add_one_contribution (fig : Figure) (t : Dict.t) :
  type_hashable t ->
  add_one plotly fig (VDict t) = for_each (add_trace plotly) (contribution t) fig.
Proof.
  unfold type_hashable, add_one, contribution. rewrite get_dict, bind_ok.
  destruct (Dict.lookup "type" t) as [[ | b | n | bits | ty | l | items]|];
    simpl; intros Hty; try reflexivity; try (destruct Hty; fail).
  unfold dispatch.
  destruct (String.eqb ty "bar"); [rewrite for_each_one; reflexivity|].
  destruct (String.eqb ty "line"); [rewrite for_each_one; reflexivity|].
  destruct (String.eqb ty "scatter"); [rewrite for_each_one; reflexivity|].
  destruct (String.eqb ty "pie"); [rewrite for_each_one; reflexivity|].
  reflexivity.
Qed.

Lemma for_each_add_one (traces : list Dict.t) (fig : Figure) :
  Forall type_hashable traces ->
  for_each (add_one plotly) (map VDict traces) fig
  = for_each (add_trace plotly) (concat (map contribution traces)) fig.
Proof.
  intros H. revert fig. induction H as [|t traces Ht _ IH]; intros fig;
    [reflexivity|].
  cbn [map concat for_each]. rewrite for_each_app, add_one_contribution by assumption.
  destruct (for_each (add_trace plotly) (contribution t) fig) as [fig1|e];
    [|reflexivity].
  rewrite !bind_ok. apply IH.
Qed.

(** The calls in a row: plotly makes a trace of each, in order. *)
Lemma for_each_add_trace (calls : list trace) (fig : Figure) :
  for_each (add_trace plotly) calls fig
  = (kept ← traverse (make_trace plotly) calls;
     Ok {| fig_data := fig_data fig ++ kept; fig_layout := fig_layout fig |}).
Proof.
  revert fig. induction calls as [|c calls IH]; intros fig.
  - cbn [for_each traverse]. rewrite bind_ok, app_nil_r. destruct fig; reflexivity.
  - cbn [for_each traverse].
    change (add_trace plotly fig c)
      with (k ← make_trace plotly c;
            Ok {| fig_data := fig_data fig ++ [k]; fig_layout := fig_layout fig |}).
    destruct (make_trace plotly c) as [k|e]; [|reflexivity].
    rewrite !bind_ok, IH. cbn [fig_data fig_layout].
    destruct (traverse (make_trace plotly) calls) as [ks|e]; [|reflexivity].
    rewrite !bind_ok, <- app_assoc. reflexivity.
Qed.

Lemma traverse_Forall2 {A B} (f : A -> result B) (l : list A) (ys : list B) :
  traverse f l = Ok ys <-> Forall2 (fun x y => f x = Ok y) l ys.
Proof.
  revert ys. induction l as [|x l IH]; intros ys; cbn [traverse].
  - split.
    + intros H. injection H as <-. constructor.
    + intros H. inversion H. reflexivity.
  - split.
    + destruct (f x) as [y|e] eqn:Hx; [|discriminate]. rewrite bind_ok.
      destruct (traverse f l) as [ys'|e] eqn:Hl; [|discriminate].
      rewrite bind_ok. intros H. injection H as <-.
      constructor; [exact Hx | apply IH; reflexivity].
    + intros H. inversion H as [|x' y l' ys' Hx Hl]; subst.
      rewrite Hx, bind_ok. apply IH in Hl. rewrite Hl. reflexivity.
Qed.

Lemma plotly_from_metadata_shape (spec : Dict.t) traces layout :
  plot_spec_shape spec traces layout ->
  plotly_from_metadata plotly (VDict spec)
  = chart plotly (concat (map contribution traces)) layout.
Proof.
  intros [Hdata Htypes Hlayout]. unfold plotly_from_metadata, chart.
  rewrite !get_dict.
  assert (Hiter : iterate (match Dict.lookup "data" spec with
                           | Some v => v | None => VList [] end)
                  = Ok (map VDict traces)).
  { destruct Hdata as [-> | [-> ->]]; reflexivity. }
  rewrite bind_ok, Hiter, bind_ok, for_each_add_one, for_each_add_trace by assumption.
  destruct (traverse (make_trace plotly) (concat (map contribution traces)))
    as [kept|e]; [|reflexivity].
  rewrite !bind_ok. unfold update_layout. cbn [fig_data fig_layout new_figure app].
  destruct (layout_update plotly (figure_layout plotly) default_layout)
    as [defaults|e]; [|reflexivity].
  rewrite !bind_ok. cbn [fig_data fig_layout].
  assert (Hkwargs : (match Dict.lookup "layout" spec with
                     | Some v => v | None => VDict [] end) = VDict layout).
  { destruct Hlayout as [-> | [-> ->]]; reflexivity. }
  rewrite Hkwargs. reflexivity.
Qed.

(** C1.  For a plot specification of the data model, the chart builder
    makes, in the order of [data], one plotly call for each trace whose
    [type] is ["bar"], ["line"], ["scatter"] or ["pie"], the call of the
    builder [TRACE_BUILDERS] gives that type (the same one for ["scatter"]
    and ["line"]), and none for a trace with any other [type] or with no
    [type], which raises nothing.  The figure returned has the trace
    plotly makes of each call, in that order; the builder raises only
    where plotly rejects a call or the layout. *)
Theorem plotly_from_metadata_dispatch (spec : Dict.t) (traces : list Dict.t)
    (layout : Dict.t) :
  plot_spec_shape spec traces layout ->
  plotly_from_metadata plotly (VDict spec)
  = chart plotly (concat (map contribution traces)) layout /\
  (forall fig,
     plotly_from_metadata plotly (VDict spec) = Ok fig ->
     Forall2 (fun call kept => make_trace plotly call = Ok kept)
             (concat (map contribution traces)) (fig_data fig)) /\
  dispatch "bar" = Some bar_of /\
  dispatch "line" = Some line_of /\
  dispatch "scatter" = Some line_of /\
  dispatch "pie" = Some pie_of /\
  (forall ty,
     match assoc ty (TRACE_BUILDERS plotly), dispatch ty with
     | Some build, Some render =>
         forall fig t, build fig (VDict t) = add_trace plotly fig (render t)
     | None, None => True
     | _, _ => False
     end) /\
  (forall t ty,
     Dict.lookup "type" t = Some (VStr ty) ->
     In ty ["bar"; "line"; "scatter"; "pie"] ->
     exists render, dispatch ty = Some render /\ contribution t = [render t]) /\
  (forall t ty,
     Dict.lookup "type" t = Some (VStr ty) ->
     ~ In ty ["bar"; "line"; "scatter"; "pie"] ->
     contribution t = []) /\
  (forall t,
     (forall ty, Dict.lookup "type" t <> Some (VStr ty)) ->
     contribution t = []).
Proof.
  intros Hshape. split; [|split; [|repeat split]].
  - apply (plotly_from_metadata_shape _ _ _ Hshape).
  - intros fig. rewrite (plotly_from_metadata_shape _ _ _ Hshape). unfold chart.
    destruct (traverse (make_trace plotly) (concat (map contribution traces)))
      as [kept|e] eqn:Hkept; [|discriminate].
    rewrite bind_ok.
    destruct (layout_update plotly (figure_layout plotly) default_layout)
      as [defaults|e]; [|discriminate].
    rewrite bind_ok.
    destruct (layout_update plotly defaults layout) as [final|e]; [|discriminate].
    rewrite bind_ok. intros H. injection H as <-. cbn [fig_data].
    apply traverse_Forall2, Hkept.
  - intros ty. unfold dispatch. simpl.
    destruct (String.eqb ty "bar"); [reflexivity|].
    destruct (String.eqb ty "line"); [reflexivity|].
    destruct (String.eqb ty "scatter"); [reflexivity|].
    destruct (String.eqb ty "pie"); [reflexivity|]. exact I.
  - intros t ty Hty Hin. unfold contribution. rewrite Hty.
    simpl in Hin. destruct Hin as [<- | [<- | [<- | [<- | []]]]]; eauto.
  - intros t ty Hty Hnin. unfold contribution, dispatch. rewrite Hty.
    destruct (String.eqb_spec ty "bar") as [->|_]; [destruct Hnin; simpl; auto|].
    destruct (String.eqb_spec ty "line") as [->|_]; [destruct Hnin; simpl; auto|].
    destruct (String.eqb_spec ty "scatter") as [->|_]; [destruct Hnin; simpl; auto|].
    destruct (String.eqb_spec ty "pie") as [->|_]; [destruct Hnin; simpl; auto|].
    reflexivity.
  - intros t Hty. unfold contribution.
    destruct (Dict.lookup "type" t) as [[ | | | | ty | | ]|]; try reflexivity.
    destruct (Hty ty eq_refl).
Qed.

End ChartBuilder.

(** C1 at [{"data": [{"type": "bar"}, {"type": "unsupported"}, {},
    {"type": "scatter"}]}]: two calls, the bar and the scatter, and with a
    plotly that accepts them a figure of two traces. *)
Lemma plotly_from_metadata_dispatch_witness :
  plotly_from_metadata Lenient.plotly
    (VDict [("data", VList [VDict [("type", VStr "bar")];
                             VDict [("type", VStr "unsupported")];
                             VDict [];
                             VDict [("type", VStr "scatter")]])])
  = chart Lenient.plotly
      [Bar VNone VNone VNone (VDict []) VNone (VStr "auto");
       Scatter VNone VNone (VStr "lines+markers") VNone] [] /\
  exists fig,
    chart Lenient.plotly
      [Bar VNone VNone VNone (VDict []) VNone (VStr "auto");
       Scatter VNone VNone (VStr "lines+markers") VNone] [] = Ok fig /\
    fig_data fig =
      [Bar VNone VNone VNone (VDict []) VNone (VStr "auto");
       Scatter VNone VNone (VStr "lines+markers") VNone].
Proof.
  split.
  - refine (proj1 (plotly_from_metadata_dispatch Lenient.plotly
      [("data", VList [VDict [("type", VStr "bar")];
                       VDict [("type", VStr "unsupported")];
                       VDict [];
                       VDict [("type", VStr "scatter")]])]
      [[("type", VStr "bar")]; [("type", VStr "unsupported")]; [];
       [("type", VStr "scatter")]]
      [] _)).
    split.
    + left. reflexivity.
    + repeat constructor.
    + right. split; reflexivity.
  - eexists. split; reflexivity.
Defined.

(** A bar trace with two points gives one bar with those points. *)
Example plotly_from_metadata_bar :
  exists layout,
    plotly_from_metadata Lenient.plotly
      (VDict [("data", VList [VDict [("type", VStr "bar");
                                      ("x", VList [VInt 1; VInt 2]);
                                      ("y", VList [VInt 3; VInt 4]);
                                      ("name", VStr "A")]])])
    = Ok {| fig_data := [Bar (VList [VInt 1; VInt 2]) (VList [VInt 3; VInt 4])
                             (VStr "A") (VDict []) VNone (VStr "auto")];
            fig_layout := layout |}.
Proof. eexists. reflexivity. Qed.

(** Outside the data model: a [type] that is a list cannot be looked up in
    the table, and the builder raises, whatever plotly does. *)
Example plotly_from_metadata_unhashable (plotly : Plotly) :
  plotly_from_metadata plotly (VDict [("data", VList [VDict [("type", VList [])]])])
  = Raise TypeError.
Proof. reflexivity. Qed.

(** A plotly that rejects a bar makes the builder raise what plotly
    raises. *)
Example plotly_from_metadata_rejected (plotly : Plotly) :
  make_trace plotly (Bar (VInt 5) VNone VNone (VDict []) VNone (VStr "auto"))
  = Raise ValueError ->
  plotly_from_metadata plotly
    (VDict [("data", VList [VDict [("type", VStr "bar"); ("x", VInt 5)]])])
  = Raise ValueError.
Proof.
  intros H. unfold plotly_from_metadata. cbn. unfold add_trace. rewrite H.
  reflexivity.
Qed.

(** ** Substring test *)

Lemma starts_with_spec (a b : string) :
  starts_with a b = true <-> exists post, b = String.append a post.
Proof.
  revert b. induction a as [|x a IH]; intros b; simpl.
  - split; [intros _; exists b; reflexivity | reflexivity].
  - destruct b as [|y b].
    + split; [discriminate | intros [post H]; discriminate].
    + rewrite andb_true_iff, IH. split.
      * intros [Hxy [post ->]]. apply Ascii.eqb_eq in Hxy as ->.
        exists post. reflexivity.
      * intros [post [= -> ->]]. split; [apply Ascii.eqb_refl | eauto].
Qed.

Lemma str_contains_spec (a b : string) :
  str_contains a b = true <-> substring a b.
Proof.
  unfold substring. induction b as [|y b IH].
  - simpl. rewrite orb_false_r, starts_with_spec. split.
    + intros [post H]. exists "", post. exact H.
    + intros [pre [post H]]. destruct pre; simpl in H; [eauto | discriminate].
  - cbn [str_contains]. rewrite orb_true_iff, starts_with_spec, IH. split.
    + intros [[post H] | [pre [post ->]]].
      * exists "", post. exact H.
      * exists (String y pre), post. reflexivity.
    + intros [[|c pre] [post H]]; simpl in H.
      * left. eauto.
      * right. injection H as -> ->. eauto.
Qed.

(** ** Comprehensions whose condition cannot raise *)

Lemma comprehension_pure {A} (p : A -> result bool) (q : A -> bool) (l : list A) :
  Forall (fun x => p x = Ok (q x)) l ->
  comprehension p l = Ok (List.filter q l).
Proof.
  induction 1 as [|x l Hx _ IH]; simpl; [reflexivity|].
  rewrite Hx, bind_ok, IH, bind_ok. reflexivity.
Qed.

Lemma traverse_pure {A B} (f : A -> result B) (g : A -> B) (l : list A) :
  Forall (fun x => f x = Ok (g x)) l ->
  traverse f l = Ok (map g l).
Proof.
  induction 1 as [|x l Hx _ IH]; simpl; [reflexivity|].
  rewrite Hx, bind_ok, IH, bind_ok. reflexivity.
Qed.

(** ** Selection and filter layer *)

Lemma queries_displayed (entries : list Dict.t) :
  Forall query_is_text entries ->
  queries (map VDict entries) = Ok (map (fun d => VStr (displayed d)) entries).
Proof.
  intros H. unfold queries.
  rewrite (traverse_pure _ (fun r => match r with
                                     | VDict d => VStr (displayed d)
                                     | _ => VNone
                                     end)).
  - rewrite map_map. reflexivity.
  - apply Forall_map. eapply Forall_impl; [exact H|].
    intros d Hd. simpl. unfold displayed, query_is_text in *.
    destruct (Dict.lookup "query" d) as [[]|]; try reflexivity; destruct Hd.
Qed.

(** The indices kept out of [start, start+1, ...] zipped with the texts. *)
Lemma kept_indices {X} (q : X -> bool) (texts : list X) (start : nat) :
  let kept := map fst (List.filter (fun iq : nat * X => q (snd iq))
                         (zip (seq start (length texts)) texts)) in
  sublist kept (seq start (length texts)) /\
  (forall i, In i kept <->
             exists t, (start <= i)%nat /\ texts !! (i - start)%nat = Some t /\
                       q t = true).
Proof.
  revert start. induction texts as [|t texts IH]; intros start; simpl.
  - split; [constructor|]. intros i. split; [intros [] | intros [t [_ [H _]]]].
    discriminate.
  - destruct (IH (S start)) as [IHsub IHin]. split.
    + destruct (q t); simpl; [apply sublist_skip | apply sublist_cons]; exact IHsub.
    + intros i.
      assert (Hlater :
        (exists t', (S start <= i)%nat /\ texts !! (i - S start)%nat = Some t' /\
                    q t' = true) <->
        (exists t', (start <= i)%nat /\ i <> start /\
                    (t :: texts) !! (i - start)%nat = Some t' /\ q t' = true)).
      { split.
        - intros [t' (Hle & Hlook & Hq)]. exists t'. repeat split; try lia; [|exact Hq].
          replace (i - start)%nat with (S (i - S start)) by lia. exact Hlook.
        - intros [t' (Hle & Hne & Hlook & Hq)]. exists t'.
          repeat split; try lia; [|exact Hq].
          replace (i - start)%nat with (S (i - S start)) in Hlook by lia.
          exact Hlook. }
      destruct (q t) eqn:Hqt; simpl; rewrite IHin, Hlater.
      * split.
        -- intros [<- | [t' (Hle & _ & Hlook & Hq)]].
           ++ exists t. rewrite Nat.sub_diag. auto.
           ++ eauto.
        -- intros [t' (Hle & Hlook & Hq)].
           destruct (Nat.eq_dec i start) as [->|Hne]; [left; reflexivity|].
           right. eauto.
      * split.
        -- intros [t' (Hle & _ & Hlook & Hq)]. eauto.
        -- intros [t' (Hle & Hlook & Hq)].
           destruct (Nat.eq_dec i start) as [->|Hne]; [|eauto].
           rewrite Nat.sub_diag in Hlook. injection Hlook as ->. congruence.
Qed.

Lemma filtered_indices_displayed (entries : list Dict.t) (search_term : string) :
  Forall query_is_text entries ->
  exists idx,
    filtered_indices (map VDict entries) search_term = Ok idx /\
    sublist idx (seq 0 (length entries)) /\
    (search_term = "" -> idx = seq 0 (length entries)) /\
    (search_term <> "" ->
     forall i, In i idx <->
               exists d, entries !! i = Some d /\
                         substring (lower search_term) (lower (displayed d))).
Proof.
  intros Htext. unfold filtered_indices.
  rewrite (queries_displayed _ Htext), bind_ok.
  set (qs := map (fun d => VStr (displayed d)) entries).
  assert (Hlen : length qs = length entries) by apply length_map.
  destruct (String.eqb_spec search_term "") as [-> | Hne]; simpl.
  - exists (seq 0 (length qs)). rewrite Hlen.
    repeat split; try reflexivity; congruence.
  - unfold enumerate.
    rewrite (comprehension_pure _ (fun iq => hit search_term (snd iq))).
    + rewrite bind_ok.
      destruct (kept_indices (hit search_term) qs 0%nat) as [Hsub Hin].
      eexists. split; [reflexivity|].
      split; [rewrite <- Hlen; exact Hsub|]. split; [congruence|]. intros _ i.
      rewrite Hin. split.
      * intros [v (_ & Hlook & Hhit)]. rewrite Nat.sub_0_r in Hlook.
        unfold qs in Hlook. rewrite list_lookup_fmap in Hlook.
        destruct (entries !! i) as [d|]; [|discriminate].
        injection Hlook as <-. exists d. split; [reflexivity|].
        apply str_contains_spec. exact Hhit.
      * intros [d [Hlook Hsubstr]]. exists (VStr (displayed d)).
        split; [lia|]. rewrite Nat.sub_0_r. unfold qs.
        rewrite list_lookup_fmap, Hlook. split; [reflexivity|].
        apply str_contains_spec. exact Hsubstr.
    + apply Forall_forall. intros [i v] Hiv.
      assert (Hv : In v qs).
      { apply list_elem_of_In. eapply elem_of_zip_r. exact Hiv. }
      unfold qs in Hv. apply in_map_iff in Hv as [d [<- _]]. reflexivity.
Qed.

(** C7.  With an empty search text the filter returns every index, 0 to
    N-1, in order.  With any other text it returns, in the original order,
    exactly the indices whose entry's [query], lower-cased, has the
    lower-cased search text as a substring; when no entry matches, the
    result is the empty sequence and the sidebar returns the empty mapping,
    no error.  Stated for a search text and queries that are ASCII text,
    where lower-casing is that of the letters A to Z. *)
Theorem filtered_indices_spec (entries : list Dict.t) (search_term : string)
    (selectbox : list nat -> nat) :
  Forall query_is_text entries ->
  is_ascii search_term = true ->
  Forall ascii_query entries ->
  exists idx,
    filtered_indices (map VDict entries) search_term = Ok idx /\
    sublist idx (seq 0 (length entries)) /\
    (search_term = "" -> idx = seq 0 (length entries)) /\
    (search_term <> "" ->
     forall i d q,
       entries !! i = Some d -> Dict.lookup "query" d = Some (VStr q) ->
       (In i idx <-> substring (lower search_term) (lower q))) /\
    (search_term <> "" ->
     (forall d, In d entries ->
                ~ substring (lower search_term) (lower (displayed d))) ->
     idx = [] /\
     render_sidebar search_term selectbox (map VDict entries) = Ok (VDict [])).
Proof.
  intros Htext _ _.
  destruct (filtered_indices_displayed entries search_term Htext)
    as (idx & Hrun & Hsub & Hempty & Hin).
  exists idx. split; [exact Hrun|]. split; [exact Hsub|].
  split; [exact Hempty|].
  assert (Hnone : search_term <> "" ->
            (forall d, In d entries ->
                       ~ substring (lower search_term) (lower (displayed d))) ->
            idx = []).
  { intros Hne Hno. destruct idx as [|i idx]; [reflexivity|]. exfalso.
    destruct (proj1 (Hin Hne i) (or_introl eq_refl)) as [d [Hd Hs]].
    apply (Hno d); [|exact Hs].
    apply list_elem_of_In, list_elem_of_lookup. eauto. }
  split.
  - intros Hne i d q Hd Hq. rewrite (Hin Hne i). split.
    + intros [d' [Hd' Hs]]. rewrite Hd in Hd'. injection Hd' as <-.
      unfold displayed in Hs. rewrite Hq in Hs. exact Hs.
    + intros Hs. exists d. split; [exact Hd|].
      unfold displayed. rewrite Hq. exact Hs.
  - intros Hne Hno. split; [exact (Hnone Hne Hno)|].
    unfold render_sidebar. destruct entries as [|d entries]; [reflexivity|].
    change (map VDict (d :: entries)) with (VDict d :: map VDict entries) in *.
    rewrite Hrun, bind_ok, (Hnone Hne Hno). reflexivity.
Qed.


(** The result list of the specification's example: two named entries. *)
Lemma example_entries_text :
  Forall query_is_text
    [ [("query", VStr "Revenue Q1")]; [("query", VStr "Revenue Q2")]; [] ].
Proof. repeat constructor. Qed.

Lemma example_entries_ascii :
  Forall ascii_query
    [ [("query", VStr "Revenue Q1")]; [("query", VStr "Revenue Q2")]; [] ].
Proof. repeat constructor. Qed.

(** C7 at that list and the search text ["rEV"]: the case of the text and
    the case of the queries are both ignored. *)
Lemma filtered_indices_spec_witness :
  exists idx,
    filtered_indices
      (map VDict [ [("query", VStr "Revenue Q1")];
                   [("query", VStr "Revenue Q2")]; [] ]) "rEV" = Ok idx /\
    sublist idx (seq 0 3) /\
    (In 0%nat idx <-> substring (lower "rEV") (lower "Revenue Q1")) /\
    idx = [0%nat; 1%nat].
Proof.
  destruct (filtered_indices_spec
              [ [("query", VStr "Revenue Q1")]; [("query", VStr "Revenue Q2")]; [] ]
              "rEV" (fun _ => 0%nat) example_entries_text eq_refl
              example_entries_ascii)
    as (idx & Hrun & Hsub & _ & Hin & _).
  exists idx. split; [exact Hrun|]. split; [exact Hsub|]. split.
  - apply (Hin ltac:(discriminate) 0%nat [("query", VStr "Revenue Q1")] "Revenue Q1");
      reflexivity.
  - injection Hrun as <-. reflexivity.
Defined.

Example filtered_indices_q2 :
  filtered_indices
    (map VDict [ [("query", VStr "Revenue Q1")]; [("query", VStr "Revenue Q2")]; [] ])
    "q2" = Ok [1%nat].
Proof. reflexivity. Qed.


Example filtered_indices_unnamed :
  filtered_indices
    (map VDict [ [("query", VStr "Revenue Q1")]; [("query", VStr "Revenue Q2")]; [] ])
    "NAMED" = Ok [2%nat].
Proof. reflexivity. Qed.

(** ** Stable sorting by a rank *)

Section SortByFacts.
Context {X : Type}.
Variable rank : X -> Z.

Lemma insert_by_perm (x : X) (l : list X) :
  Permutation (insert_by rank x l) (x :: l).
Proof.
  induction l as [|y l IH]; simpl; [reflexivity|].
  destruct (rank y <? rank x); [|reflexivity].
  rewrite IH. apply perm_swap.
Qed.

Lemma sort_by_perm (l : list X) : Permutation (sort_by rank l) l.
Proof.
  induction l as [|x l IH]; simpl; [reflexivity|].
  rewrite insert_by_perm, IH. reflexivity.
Qed.

Lemma insert_by_sorted (x : X) (l : list X) :
  StronglySorted (ascending rank) l ->
  StronglySorted (ascending rank) (insert_by rank x l).
Proof.
  induction 1 as [|y l Hl IH Hy]; simpl.
  - repeat constructor.
  - destruct (Z.ltb_spec (rank y) (rank x)) as [Hlt|Hge].
    + constructor; [exact IH|].
      rewrite insert_by_perm. constructor; [unfold ascending; lia | exact Hy].
    + constructor; [constructor; assumption|].
      constructor; [exact Hge|].
      eapply Forall_impl; [exact Hy|]. unfold ascending. intros z Hz. lia.
Qed.

Lemma sort_by_sorted (l : list X) : StronglySorted (ascending rank) (sort_by rank l).
Proof.
  induction l as [|x l IH]; simpl; [constructor | apply insert_by_sorted, IH].
Qed.

Lemma insert_by_of_rank (k : Z) (x : X) (l : list X) :
  of_rank rank k (insert_by rank x l) = of_rank rank k (x :: l).
Proof.
  induction l as [|y l IH]; [reflexivity|].
  cbn [insert_by]. destruct (Z.ltb_spec (rank y) (rank x)) as [Hlt|_]; [|reflexivity].
  unfold of_rank in *. cbn [List.filter] in *. rewrite IH.
  destruct (Z.eqb_spec (rank x) k), (Z.eqb_spec (rank y) k); try reflexivity. lia.
Qed.

Lemma sort_by_of_rank (k : Z) (l : list X) :
  of_rank rank k (sort_by rank l) = of_rank rank k l.
Proof.
  induction l as [|x l IH]; [reflexivity|].
  cbn [sort_by]. rewrite insert_by_of_rank. unfold of_rank in *.
  cbn [List.filter]. rewrite IH. reflexivity.
Qed.

Lemma sort_by_fixed (l : list X) :
  StronglySorted (ascending rank) l -> sort_by rank l = l.
Proof.
  induction 1 as [|x l Hl IH Hx]; [reflexivity|].
  cbn [sort_by]. rewrite IH. destruct l as [|y l]; [reflexivity|].
  cbn [insert_by]. apply Forall_cons in Hx as [Hxy _]. unfold ascending in Hxy.
  destruct (Z.ltb_spec (rank y) (rank x)); [lia | reflexivity].
Qed.

Lemma strongly_sorted_snoc (R : X -> X -> Prop) (l : list X) (x : X) :
  StronglySorted R l -> Forall (fun y => R y x) l -> StronglySorted R (l ++ [x]).
Proof.
  intros H. induction H as [|y l Hl IH Hy]; intros Hall; simpl.
  - repeat constructor.
  - apply Forall_cons in Hall as [Hyx Hall]. constructor; [apply IH, Hall|].
    apply Forall_app. split; [exact Hy | repeat constructor; exact Hyx].
Qed.

Lemma strongly_sorted_flip (R : X -> X -> Prop) (l : list X) :
  StronglySorted R l -> StronglySorted (fun a b => R b a) (rev l).
Proof.
  intros H. induction H as [|y l Hl IH Hy]; simpl; [constructor|].
  apply strongly_sorted_snoc; [exact IH|]. apply Forall_rev. exact Hy.
Qed.

Lemma strongly_sorted_rev (l : list X) :
  StronglySorted (ascending rank) l <-> StronglySorted (descending rank) (rev l).
Proof.
  split; intros H.
  - apply (strongly_sorted_flip _ _ H).
  - rewrite <- (rev_involutive l). apply (strongly_sorted_flip _ _ H).
Qed.

Lemma sort_descending_perm (l : list X) : Permutation (sort_descending rank l) l.
Proof.
  unfold sort_descending.
  rewrite <- Permutation_rev, sort_by_perm, <- Permutation_rev. reflexivity.
Qed.

Lemma sort_descending_sorted (l : list X) :
  StronglySorted (descending rank) (sort_descending rank l).
Proof. apply strongly_sorted_rev, sort_by_sorted. Qed.

Lemma sort_descending_stable (k : Z) (l : list X) :
  of_rank rank k (sort_descending rank l) = of_rank rank k l.
Proof.
  unfold sort_descending, of_rank.
  rewrite List.filter_rev. fold (of_rank rank k (sort_by rank (rev l))).
  rewrite sort_by_of_rank. unfold of_rank.
  rewrite List.filter_rev, rev_involutive. reflexivity.
Qed.

Lemma sort_descending_fixed (l : list X) :
  StronglySorted (descending rank) l -> sort_descending rank l = l.
Proof.
  intros H. unfold sort_descending. rewrite sort_by_fixed.
  - apply rev_involutive.
  - apply strongly_sorted_rev. rewrite rev_involutive. exact H.
Qed.

(** A list has one stable arrangement in descending order: whichever
    stable sort the interpreter runs, it returns [sort_descending]. *)
Lemma of_rank_in (k : Z) (x : X) (l : list X) :
  In x (of_rank rank k l) <-> In x l /\ rank x = k.
Proof.
  unfold of_rank. rewrite filter_In, Z.eqb_eq. reflexivity.
Qed.

Lemma descending_stable_unique (r r' : list X) :
  StronglySorted (descending rank) r -> StronglySorted (descending rank) r' ->
  (forall k, of_rank rank k r = of_rank rank k r') ->
  r = r'.
Proof.
  intros Hr. revert r'. induction Hr as [|x r Hr IH Hx]; intros r' Hr' Hsame.
  - destruct r' as [|y r']; [reflexivity|].
    specialize (Hsame (rank y)). unfold of_rank in Hsame. simpl in Hsame.
    rewrite Z.eqb_refl in Hsame. discriminate.
  - destruct r' as [|y r'].
    { specialize (Hsame (rank x)). unfold of_rank in Hsame. simpl in Hsame.
      rewrite Z.eqb_refl in Hsame. discriminate. }
    apply StronglySorted_inv in Hr' as [Hr' Hy].
    assert (Hxy : rank x = rank y).
    { assert (Hyx : In y (x :: r)).
      { apply (of_rank_in (rank y)). rewrite Hsame. apply of_rank_in.
        split; [left|]; reflexivity. }
      assert (Hxy : In x (y :: r')).
      { apply (of_rank_in (rank x)). rewrite <- Hsame. apply of_rank_in.
        split; [left|]; reflexivity. }
      assert (rank y <= rank x).
      { destruct Hyx as [->|Hyx]; [lia|].
        apply (proj1 (Forall_forall _ _) Hx), list_elem_of_In, Hyx. }
      assert (rank x <= rank y).
      { destruct Hxy as [->|Hxy]; [lia|].
        apply (proj1 (Forall_forall _ _) Hy), list_elem_of_In, Hxy. }
      lia. }
    assert (Hhead := Hsame (rank x)). unfold of_rank in Hhead. simpl in Hhead.
    rewrite <- Hxy, Z.eqb_refl in Hhead. injection Hhead as <- Htail.
    f_equal. apply (IH r' Hr'). intros k. specialize (Hsame k).
    unfold of_rank in *. simpl in Hsame.
    destruct (Z.eqb_spec (rank x) k) as [Hk|_]; [|exact Hsame].
    subst k. exact Htail.
Qed.

Lemma sort_descending_unique (l r : list X) :
  StronglySorted (descending rank) r ->
  (forall k, of_rank rank k r = of_rank rank k l) ->
  r = sort_descending rank l.
Proof.
  intros Hr Hsame. apply descending_stable_unique;
    [exact Hr | apply sort_descending_sorted|].
  intros k. rewrite sort_descending_stable. apply Hsame.
Qed.

End SortByFacts.

(** ** [sorted] on keys that are aware datetimes *)

Lemma sort_by_map {X Y} (rank : Y -> Z) (f : X -> Y) (l : list X) :
  sort_by rank (map f l) = map f (sort_by (fun x => rank (f x)) l).
Proof.
  assert (Hins : forall x l, insert_by rank (f x) (map f l)
                             = map f (insert_by (fun x => rank (f x)) x l)).
  { intros x l0. induction l0 as [|y l0 IH]; [reflexivity|].
    cbn [map insert_by]. destruct (rank (f y) <? rank (f x)); [|reflexivity].
    rewrite IH. reflexivity. }
  induction l as [|x l IH]; [reflexivity|].
  cbn [map sort_by]. rewrite IH. apply Hins.
Qed.

Section SortedAware.
Context {A : Type}.

Lemma datetime_lt_aware (a b : datetime) :
  is_aware a = true -> is_aware b = true ->
  datetime_lt a b = Ok (instant a <? instant b).
Proof. unfold datetime_lt. intros -> ->. reflexivity. Qed.

Lemma insert_aware (x : datetime * A) (l : list (datetime * A)) :
  key_aware x -> Forall key_aware l ->
  insert datetime_lt x l = Ok (insert_by key_rank x l).
Proof.
  intros Hx Hl. induction Hl as [|y l Hy _ IH]; [reflexivity|].
  cbn [insert insert_by]. rewrite (datetime_lt_aware _ _ Hy Hx), bind_ok.
  unfold key_rank at 1 2. destruct (instant (fst y) <? instant (fst x)).
  - rewrite IH. reflexivity.
  - reflexivity.
Qed.

Lemma stable_sort_aware (l : list (datetime * A)) :
  Forall key_aware l ->
  stable_sort datetime_lt l = Ok (sort_by key_rank l).
Proof.
  induction 1 as [|x l Hx Hl IH]; [reflexivity|].
  cbn [stable_sort sort_by]. rewrite IH, bind_ok. apply insert_aware; [exact Hx|].
  rewrite sort_by_perm. exact Hl.
Qed.

Variable key : A -> result datetime.

Lemma zip_decorate (f : A -> datetime) (l : list A) :
  zip (map f l) l = map (fun x => (f x, x)) l.
Proof. induction l as [|x l IH]; simpl; [|rewrite IH]; reflexivity. Qed.

Lemma sorted_aware (l : list A) :
  Forall (has_aware_key key) l ->
  sorted datetime_lt key true l = Ok (sort_descending (rank_of key) l).
Proof.
  intros Hl. unfold sorted.
  rewrite (traverse_pure key (key_or_min key)).
  2:{ eapply Forall_impl; [exact Hl|]. intros x [dt [Hx _]].
      unfold key_or_min. rewrite Hx. reflexivity. }
  rewrite bind_ok, zip_decorate, <- map_rev, stable_sort_aware.
  2:{ apply Forall_map, Forall_rev. eapply Forall_impl; [exact Hl|].
      intros x [dt [Hx Hdt]]. unfold key_aware, key_or_min. simpl.
      rewrite Hx. exact Hdt. }
  rewrite bind_ok, sort_by_map, <- map_rev, map_map. simpl. rewrite map_id.
  reflexivity.
Qed.

Lemma traverse_ok (l : list A) (ks : list datetime) :
  traverse key l = Ok ks -> Forall (fun x => exists dt, key x = Ok dt) l.
Proof.
  revert ks. induction l as [|x l IH]; intros ks; [constructor|].
  cbn [traverse]. destruct (key x) as [dt|e] eqn:Hx; [|discriminate].
  rewrite bind_ok. destruct (traverse key l) as [ks'|e] eqn:Hl; [|discriminate].
  intros _. constructor; [eauto | eapply IH; reflexivity].
Qed.

End SortedAware.

(** ** Result loader *)

Lemma of_json_object (m : list (string * json)) :
  of_json (JObject m) = VDict (build_dict m []).
Proof. reflexivity. Qed.

Lemma lookup_set (k k' : string) (v : value) (d : Dict.t) :
  Dict.lookup k' (Dict.set k v d)
  = if String.eqb k' k then Some v else Dict.lookup k' d.
Proof.
  induction d as [|[k0 v0] d IH]; simpl.
  - reflexivity.
  - destruct (String.eqb_spec k k0) as [->|Hne]; simpl.
    + destruct (String.eqb k' k0); reflexivity.
    + rewrite IH. destruct (String.eqb_spec k' k0) as [->|_]; [|reflexivity].
      destruct (String.eqb_spec k0 k) as [->|_]; [contradiction | reflexivity].
Qed.

Lemma mem_build_dict (k : string) (m : list (string * json)) (acc : Dict.t) :
  Dict.mem k (build_dict m acc) = Dict.mem k acc || member_named k m.
Proof.
  revert acc. induction m as [|[k0 j] m IH]; intros acc; simpl.
  - rewrite orb_false_r. reflexivity.
  - rewrite IH. unfold Dict.mem at 1. rewrite lookup_set.
    fold (Dict.mem k acc). destruct (String.eqb k k0); simpl.
    + rewrite orb_true_r. reflexivity.
    + unfold Dict.mem. reflexivity.
Qed.

Lemma has_plot_object (m : list (string * json)) :
  has_plot (of_json (JObject m)) = member_named "plot" m.
Proof.
  rewrite of_json_object. unfold has_plot. simpl. apply mem_build_dict.
Qed.

Lemma comprehension_ok {A} (p : A -> result bool) (l kept : list A) :
  comprehension p l = Ok kept ->
  kept = List.filter (fun x => match p x with Ok b => b | Raise _ => false end) l.
Proof.
  revert kept. induction l as [|x l IH]; intros kept; simpl.
  - congruence.
  - destruct (p x) as [b|e]; [|discriminate]. rewrite bind_ok.
    destruct (comprehension p l) as [r|e]; [|discriminate].
    rewrite bind_ok. intros [= <-]. rewrite (IH r eq_refl). reflexivity.
Qed.

Section Loader.
Variable fromisoformat : string -> option datetime.

Lemma parse_timestamp_ok (v : value) (dt : datetime) :
  parse_timestamp fromisoformat v = Ok dt -> is_dict v /\ is_aware dt = true.
Proof.
  destruct v as [ | | | | | | d]; try discriminate.
  intros H. split; [eexists; reflexivity|].
  eapply parse_timestamp_aware, H.
Qed.

Lemma dict_has_aware_key (v : value) :
  is_dict v -> has_aware_key (parse_timestamp fromisoformat) v.
Proof.
  intros [d ->]. eexists. split; [apply parse_timestamp_cases|].
  eapply parse_timestamp_aware, parse_timestamp_cases.
Qed.

Lemma sorted_entries (l rs : list value) :
  sorted datetime_lt (parse_timestamp fromisoformat) true l = Ok rs ->
  Forall is_dict l /\ rs = sort_descending (timestamp_rank fromisoformat) l.
Proof.
  intros H.
  assert (Hd : Forall is_dict l).
  { unfold sorted in H.
    destruct (traverse (parse_timestamp fromisoformat) l) as [ks|e] eqn:Hks;
      [|discriminate].
    eapply Forall_impl; [apply (traverse_ok _ _ _ Hks)|].
    intros v [dt Hdt]. apply (parse_timestamp_ok _ _ Hdt). }
  split; [exact Hd|].
  rewrite sorted_aware in H.
  - injection H as <-. reflexivity.
  - eapply Forall_impl; [exact Hd|]. apply dict_has_aware_key.
Qed.

(** What a successful load of a document returns. *)
Lemma load_results_ok (fs : filesystem) (path : string) (doc : json)
    (rs : list value) :
  fs path = Text (Some doc) ->
  load_results fromisoformat fs path = Ok rs ->
  exists items,
    iterate (normalize (of_json doc)) = Ok items /\
    Forall is_dict (List.filter has_plot items) /\
    rs = sort_descending (timestamp_rank fromisoformat) (List.filter has_plot items).
Proof.
  intros Hfile. unfold load_results. rewrite Hfile. cbv zeta.
  destruct (iterate (normalize (of_json doc))) as [items|e]; [|discriminate].
  rewrite bind_ok.
  destruct (comprehension (contains "plot") items) as [kept|e] eqn:Hkept;
    [|discriminate].
  rewrite bind_ok. apply comprehension_ok in Hkept. fold has_plot in Hkept.
  subst kept. intros H. exists items. split; [reflexivity|].
  apply sorted_entries, H.
Qed.

(** A document whose elements are all mappings loads. *)
Lemma load_results_dicts (fs : filesystem) (path : string) (doc : json)
    (items : list value) :
  fs path = Text (Some doc) ->
  iterate (normalize (of_json doc)) = Ok items ->
  Forall is_dict items ->
  load_results fromisoformat fs path
  = Ok (sort_descending (timestamp_rank fromisoformat) (List.filter has_plot items)).
Proof.
  intros Hfile Hitems Hd. unfold load_results. rewrite Hfile. cbv zeta.
  rewrite Hitems, bind_ok.
  rewrite (comprehension_pure _ has_plot).
  2:{ eapply Forall_impl; [exact Hd|]. intros v [d ->]. reflexivity. }
  rewrite bind_ok. apply sorted_aware.
  apply Forall_forall. intros v Hv. apply dict_has_aware_key.
  apply list_elem_of_In, filter_In in Hv as [Hv _].
  apply (proj1 (Forall_forall _ _) Hd), list_elem_of_In, Hv.
Qed.

(** C3.  A document that is a list of N objects, M of them with a [plot]
    member, loads as exactly M entries, the objects with a [plot] member;
    a document that is a single object loads as the list of that one
    object when it has a [plot] member. *)
Theorem load_results_count (fs : filesystem) (path : string) :
  (forall objs : list (list (string * json)),
     fs path = Text (Some (JArray (map JObject objs))) ->
     exists rs,
       load_results fromisoformat fs path = Ok rs /\
       length rs = length (List.filter (member_named "plot") objs) /\
       Permutation rs
         (map (fun m => of_json (JObject m))
              (List.filter (member_named "plot") objs))) /\
  (forall m : list (string * json),
     fs path = Text (Some (JObject m)) ->
     load_results fromisoformat fs path
     = Ok (if member_named "plot" m then [of_json (JObject m)] else [])).
Proof.
  split.
  - intros objs Hfile.
    assert (Hload := load_results_dicts fs path _
                       (map (fun m => of_json (JObject m)) objs) Hfile).
    rewrite Hload.
    + assert (Hperm : Permutation
                 (sort_descending (timestamp_rank fromisoformat)
                    (List.filter has_plot (map (fun m => of_json (JObject m)) objs)))
                 (map (fun m => of_json (JObject m))
                    (List.filter (member_named "plot") objs))).
      { rewrite sort_descending_perm.
        clear. induction objs as [|m objs IH]; [reflexivity|].
        cbn [map List.filter]. rewrite has_plot_object.
        destruct (member_named "plot" m); [cbn [map]; rewrite IH|]; auto. }
      eexists. split; [reflexivity|]. split; [|exact Hperm].
      rewrite (Permutation_length Hperm). apply length_map.
    + simpl. rewrite map_map. reflexivity.
    + apply Forall_map, Forall_forall. intros m _. eexists. apply of_json_object.
  - intros m Hfile.
    rewrite (load_results_dicts fs path _ [of_json (JObject m)] Hfile).
    + cbn [List.filter]. rewrite has_plot_object.
      destruct (member_named "plot" m); reflexivity.
    + reflexivity.
    + repeat constructor. eexists. apply of_json_object.
Qed.

End Loader.

(** C3 at a list of three objects, two of them with a [plot]. *)
Lemma load_results_count_witness :
  exists rs,
    load_results Iso.parse
      (fun _ => Text (Some (JArray (map JObject
         [ [("query", JString "a"); ("plot", JObject [])];
           [("query", JString "b")];
           [("plot", JObject [])] ]))))
      "plots.json" = Ok rs /\
    length rs = 2%nat.
Proof.
  destruct (proj1 (load_results_count Iso.parse
                     (fun _ => Text (Some (JArray (map JObject
                        [ [("query", JString "a"); ("plot", JObject [])];
                          [("query", JString "b")];
                          [("plot", JObject [])] ]))))
                     "plots.json") _ eq_refl) as (rs & Hrs & Hlen & _).
  exists rs. split; [exact Hrs | exact Hlen].
Defined.

(** A path with no file behind it loads as the empty list. *)
Example load_results_missing :
  load_results Iso.parse (fun _ => Missing) "plots.json" = Ok [].
Proof. reflexivity. Qed.

(** A text that is not JSON makes the load raise. *)
Example load_results_malformed :
  load_results Iso.parse (fun _ => Text None) "plots.json" = Raise JSONDecodeError.
Proof. reflexivity. Qed.

(** The end-to-end example of the specification. *)
Example end_to_end :
  let q1 := [("query", VStr "Revenue Q1");
             ("timestamp", VStr "2024-01-01T00:00:00");
             ("plot", VDict [("data", VList [VDict [("type", VStr "line")]])])] in
  let q2 := [("query", VStr "Revenue Q2");
             ("plot", VDict [("data", VList [VDict [("type", VStr "bar")]])])] in
  load_results Iso.parse (fun _ => Text (Some revenue_document)) "plots.json"
  = Ok [VDict q1; VDict q2] /\
  detect_chart_type (field q1 "plot" VNone) = Ok "Line" /\
  filtered_indices [VDict q1; VDict q2] "q2" = Ok [1%nat].
Proof. repeat split. Qed.

(** ** Order of the loaded entries *)

Lemma strongly_sorted_lookup {X} (R : X -> X -> Prop) (l : list X) (i j : nat)
    (a b : X) :
  StronglySorted R l -> l !! i = Some a -> l !! j = Some b -> (i < j)%nat ->
  R a b.
Proof.
  intros H. revert i j. induction H as [|x l Hl IH Hx]; intros i j Hi Hj Hij.
  - discriminate.
  - destruct j as [|j]; [lia|]. destruct i as [|i]; simpl in Hi, Hj.
    + injection Hi as <-. apply (proj1 (Forall_forall _ _) Hx).
      eapply list_elem_of_lookup_2, Hj.
    + apply (IH i j Hi Hj). lia.
Qed.

Lemma rank_unusable fromisoformat (d : Dict.t) :
  timestamp_unusable fromisoformat d ->
  timestamp_rank fromisoformat (VDict d) = instant min_utc.
Proof.
  unfold timestamp_unusable, timestamp_rank, rank_of, key_or_min.
  rewrite parse_timestamp_cases.
  destruct (Dict.lookup "timestamp" d) as [[ | | | | s | | ]|]; try reflexivity.
  intros [-> | Hs]; [reflexivity|]. rewrite Hs.
  destruct (String.eqb s ""); reflexivity.
Qed.

Lemma rank_parses fromisoformat (d : Dict.t) (dt : datetime) :
  timestamp_parses fromisoformat d dt ->
  timestamp_rank fromisoformat (VDict d) = instant dt.
Proof.
  intros [s (Hs & Hne & Hdt)].
  unfold timestamp_rank, rank_of, key_or_min.
  rewrite parse_timestamp_cases, Hs, Hdt.
  apply String.eqb_neq in Hne. rewrite Hne.
  unfold instant. destruct (tzinfo dt) eqn:E; simpl; [rewrite E|]; reflexivity.
Qed.

(** C2, as the code has it.  The sequence a load returns is a
    rearrangement of the elements that have a [plot], sorted by the instant
    of the parsed timestamp in descending order, elements of equal instant
    keeping the order they have in the document.  An entry whose timestamp
    is missing or does not parse is ranked at the minimum time in UTC, and
    so comes after every entry whose parsed timestamp is later than that
    minimum. *)
Theorem load_results_order (fromisoformat : string -> option datetime)
    (fs : filesystem) (path : string) (doc : json) (rs : list value) :
  fs path = Text (Some doc) ->
  load_results fromisoformat fs path = Ok rs ->
  exists items,
    iterate (normalize (of_json doc)) = Ok items /\
    Permutation rs (List.filter has_plot items) /\
    StronglySorted (descending (timestamp_rank fromisoformat)) rs /\
    (forall k,
       of_rank (timestamp_rank fromisoformat) k rs
       = of_rank (timestamp_rank fromisoformat) k (List.filter has_plot items)) /\
    (forall d, timestamp_unusable fromisoformat d ->
               timestamp_rank fromisoformat (VDict d) = instant min_utc) /\
    (forall d dt, timestamp_parses fromisoformat d dt ->
                  timestamp_rank fromisoformat (VDict d) = instant dt) /\
    (forall i j a b dt,
       rs !! i = Some (VDict a) -> rs !! j = Some (VDict b) ->
       timestamp_unusable fromisoformat a ->
       timestamp_parses fromisoformat b dt ->
       instant min_utc < instant dt ->
       (j < i)%nat).
Proof.
  intros Hfile Hload.
  destruct (load_results_ok _ _ _ _ _ Hfile Hload) as (items & Hitems & _ & ->).
  exists items. split; [exact Hitems|].
  split; [apply sort_descending_perm|].
  split; [apply sort_descending_sorted|].
  split; [intros k; apply sort_descending_stable|].
  split; [apply rank_unusable|].
  split; [apply rank_parses|].
  intros i j a b dt Hi Hj Ha Hb Hlater.
  destruct (Nat.lt_trichotomy j i) as [Hlt | [-> | Hgt]]; [exact Hlt | |].
  - rewrite Hi in Hj. injection Hj as <-.
    rewrite <- (rank_unusable _ _ Ha), (rank_parses _ _ _ Hb) in Hlater. lia.
  - assert (Hdesc := strongly_sorted_lookup _ _ _ _ _ _
                       (sort_descending_sorted (timestamp_rank fromisoformat) _)
                       Hi Hj Hgt).
    unfold descending in Hdesc.
    rewrite (rank_unusable _ _ Ha), (rank_parses _ _ _ Hb) in Hdesc. lia.
Qed.

(** C2 as stated fails: the second entry of [tie_document] has a valid
    timestamp, the first has none, and the load returns the first before
    the second, the valid timestamp being the minimum time itself. *)
Lemma load_results_missing_before_valid :
  Iso.parse "0001-01-01T00:00:00" = Some datetime_min /\
  load_results Iso.parse (fun _ => Text (Some tie_document)) "plots.json"
  = Ok [ VDict [("plot", VDict [])];
         VDict [("timestamp", VStr "0001-01-01T00:00:00"); ("plot", VDict [])] ].
Proof. split; reflexivity. Qed.

(** C2 at the document of two entries, the first without a timestamp and
    the second dated 2024-01-01: the dated entry comes first. *)
Lemma load_results_order_witness :
  exists items,
    iterate (normalize (of_json
      (JArray [ JObject [("query", JString "Revenue Q2"); ("plot", JObject [])];
                JObject [("query", JString "Revenue Q1");
                         ("timestamp", JString "2024-01-01T00:00:00");
                         ("plot", JObject [])] ]))) = Ok items /\
    Permutation
      [ VDict [("query", VStr "Revenue Q1");
               ("timestamp", VStr "2024-01-01T00:00:00"); ("plot", VDict [])];
        VDict [("query", VStr "Revenue Q2"); ("plot", VDict [])] ]
      (List.filter has_plot items).
Proof.
  destruct (load_results_order Iso.parse
    (fun _ => Text (Some
      (JArray [ JObject [("query", JString "Revenue Q2"); ("plot", JObject [])];
                JObject [("query", JString "Revenue Q1");
                         ("timestamp", JString "2024-01-01T00:00:00");
                         ("plot", JObject [])] ])))
    "plots.json" _ _ eq_refl eq_refl) as (items & Hitems & Hperm & _).
  exists items. split; [exact Hitems | exact Hperm].
Defined.

(** ** Export and reload *)

Lemma to_json_dict (d : Dict.t) : to_json (VDict d) = JObject (members_of d).
Proof. reflexivity. Qed.

Lemma set_fresh (k : string) (v : value) (d : Dict.t) :
  ~ In k (Dict.keys d) -> Dict.set k v d = d ++ [(k, v)].
Proof.
  induction d as [|[k0 v0] d IH]; simpl; [reflexivity|].
  intros Hk. destruct (String.eqb_spec k k0) as [->|_]; [tauto|].
  rewrite IH by tauto. reflexivity.
Qed.

Lemma set_present (k : string) (v : value) (d : Dict.t) :
  In k (Dict.keys d) -> Dict.keys (Dict.set k v d) = Dict.keys d.
Proof.
  induction d as [|[k0 v0] d IH]; simpl; [tauto|].
  intros Hk. destruct (String.eqb_spec k k0) as [->|Hne]; [reflexivity|].
  simpl. rewrite IH; [reflexivity|]. destruct Hk; congruence.
Qed.

Lemma set_forall (Q : string * value -> Prop) (k : string) (v : value)
    (d : Dict.t) :
  Q (k, v) -> Forall Q d -> Forall Q (Dict.set k v d).
Proof.
  intros Hv. induction 1 as [|[k0 v0] d H0 Hd IH]; simpl.
  - repeat constructor. exact Hv.
  - destruct (String.eqb k k0); constructor; assumption.
Qed.

Lemma set_nodup (k : string) (v : value) (d : Dict.t) :
  NoDup (Dict.keys d) -> NoDup (Dict.keys (Dict.set k v d)).
Proof.
  intros Hd. destruct (in_dec string_dec k (Dict.keys d)) as [Hin|Hnin].
  - rewrite set_present by exact Hin. exact Hd.
  - rewrite set_fresh by exact Hnin. unfold Dict.keys. rewrite map_app. simpl.
    apply NoDup_app. split; [exact Hd|]. split.
    + intros x Hx Hx'. apply list_elem_of_In in Hx, Hx'.
      destruct Hx' as [<-|[]]. contradiction.
    + repeat constructor. intros H. apply list_elem_of_In in H. destruct H.
Qed.

Lemma build_dict_unique (m : list (string * json)) (acc : Dict.t) :
  Forall (fun kj => unique_keys (of_json (snd kj))) m ->
  NoDup (Dict.keys acc) -> Forall (fun kv => unique_keys (snd kv)) acc ->
  NoDup (Dict.keys (build_dict m acc)) /\
  Forall (fun kv => unique_keys (snd kv)) (build_dict m acc).
Proof.
  intros Hm. revert acc. induction Hm as [|[k j] m Hj _ IH]; intros acc Hnd Hacc.
  - split; assumption.
  - simpl. apply IH; [apply set_nodup, Hnd | apply set_forall; assumption].
Qed.

Lemma of_json_unique_keys (j : json) : unique_keys (of_json j).
Proof.
  induction j as [ | | | | | l IH | m IH] using json_nested_ind;
    try (constructor; fail).
  - simpl. constructor. apply Forall_map. exact IH.
  - rewrite of_json_object.
    destruct (build_dict_unique m [] IH) as [Hnd Hall];
      [constructor | constructor |].
    constructor; assumption.
Qed.

Lemma build_dict_members (d acc : Dict.t) :
  NoDup (Dict.keys acc ++ Dict.keys d) ->
  Forall (fun kv => of_json (to_json (snd kv)) = snd kv) d ->
  build_dict (members_of d) acc = acc ++ d.
Proof.
  intros Hnd Hd. revert acc Hnd.
  induction Hd as [|[k v] d Hv _ IH]; intros acc Hnd; simpl.
  - rewrite app_nil_r. reflexivity.
  - simpl in Hv. rewrite Hv, set_fresh.
    + rewrite IH; [rewrite <- app_assoc; reflexivity|].
      unfold Dict.keys in *. rewrite map_app, <- app_assoc. exact Hnd.
    + simpl in Hnd. apply NoDup_app in Hnd as (_ & Hdisj & _).
      intros Hin. apply (Hdisj k); [apply list_elem_of_In, Hin|].
      apply list_elem_of_here.
Qed.

(** Decoding what was encoded gives the value back. *)
Lemma of_json_to_json (v : value) : unique_keys v -> of_json (to_json v) = v.
Proof.
  induction v as [ | | | | | l IH | d IH] using value_nested_ind;
    intros Huk; try reflexivity.
  - inversion Huk as [ | | | | | l' Hl | ]; subst. simpl. f_equal.
    rewrite map_map. rewrite <- (map_id l) at 2. apply map_ext_Forall.
    apply Forall_forall. intros x Hx.
    apply (proj1 (Forall_forall _ _) IH x Hx), (proj1 (Forall_forall _ _) Hl x Hx).
  - inversion Huk as [ | | | | | | d' Hnd Hd]; subst.
    rewrite to_json_dict, of_json_object. f_equal.
    apply (build_dict_members d []); [exact Hnd|].
    apply Forall_forall. intros kv Hkv.
    apply (proj1 (Forall_forall _ _) IH kv Hkv), (proj1 (Forall_forall _ _) Hd kv Hkv).
Qed.

Lemma iterate_unique_keys (v : value) (items : list value) :
  unique_keys v -> iterate v = Ok items -> Forall unique_keys items.
Proof.
  intros Huk. destruct v as [ | | | | s | l | d]; simpl; try discriminate;
    intros [= <-].
  - clear Huk. induction s as [|c s IH]; simpl; repeat constructor. exact IH.
  - inversion Huk. assumption.
  - apply Forall_map, Forall_forall. intros k _. constructor.
Qed.

Lemma normalize_unique_keys (v : value) :
  unique_keys v -> unique_keys (normalize v).
Proof.
  intros Huk. destruct v; simpl; try exact Huk.
  apply uk_list. constructor; [exact Huk | constructor].
Qed.

Lemma filter_all {X} (f : X -> bool) (l : list X) :
  Forall (fun x => f x = true) l -> List.filter f l = l.
Proof.
  induction 1 as [|x l Hx _ IH]; simpl; [reflexivity|]. rewrite Hx, IH. reflexivity.
Qed.

(** What every successful load returns: mappings that have a [plot],
    with each key once, in descending order of rank. *)
Lemma load_results_invariant (fromisoformat : string -> option datetime)
    (fs : filesystem) (path : string) (rs : list value) :
  load_results fromisoformat fs path = Ok rs ->
  Forall is_dict rs /\ Forall unique_keys rs /\
  Forall (fun v => has_plot v = true) rs /\
  StronglySorted (descending (timestamp_rank fromisoformat)) rs.
Proof.
  intros Hload. destruct (fs path) as [|[doc|]] eqn:Hfile.
  - unfold load_results in Hload. rewrite Hfile in Hload. injection Hload as <-.
    repeat split; constructor.
  - destruct (load_results_ok _ _ _ _ _ Hfile Hload) as (items & Hitems & Hd & ->).
    assert (Hin : forall v,
               In v (sort_descending (timestamp_rank fromisoformat)
                       (List.filter has_plot items)) ->
               In v (List.filter has_plot items)).
    { intros v. apply Permutation_in, sort_descending_perm. }
    assert (Huk : Forall unique_keys items).
    { eapply iterate_unique_keys; [|exact Hitems].
      apply normalize_unique_keys, of_json_unique_keys. }
    repeat split.
    + apply Forall_forall. intros v Hv. apply list_elem_of_In, Hin in Hv.
      apply (proj1 (Forall_forall _ _) Hd), list_elem_of_In, Hv.
    + apply Forall_forall. intros v Hv.
      apply list_elem_of_In, Hin, filter_In in Hv as [Hv _].
      apply (proj1 (Forall_forall _ _) Huk), list_elem_of_In, Hv.
    + apply Forall_forall. intros v Hv.
      apply list_elem_of_In, Hin, filter_In in Hv as [_ Hv]. exact Hv.
    + apply sort_descending_sorted.
  - unfold load_results in Hload. rewrite Hfile in Hload. discriminate.
Qed.

(** C8.  The document the export action writes for a loaded list, loaded
    again, gives the same list: the same entries in the same order. *)
Theorem export_reload (fromisoformat : string -> option datetime)
    (fs fs' : filesystem) (path path' : string) (rs : list value) :
  load_results fromisoformat fs path = Ok rs ->
  fs' path' = Text (Some (render_download rs)) ->
  load_results fromisoformat fs' path' = Ok rs.
Proof.
  intros Hload Hfile'.
  destruct (load_results_invariant _ _ _ _ Hload) as (Hd & Huk & Hplot & Hsorted).
  rewrite (load_results_dicts _ _ _ _ rs Hfile').
  - rewrite (filter_all _ _ Hplot), (sort_descending_fixed _ _ Hsorted).
    reflexivity.
  - unfold render_download. rewrite of_json_to_json by (constructor; exact Huk).
    reflexivity.
  - exact Hd.
Qed.

(** C8 at the document of two entries the specification gives as its
    example, exported and loaded again. *)
Lemma export_reload_witness :
  load_results Iso.parse
    (fun _ => Text (Some (render_download
       [ VDict [("query", VStr "Revenue Q1");
                ("timestamp", VStr "2024-01-01T00:00:00"); ("plot", VDict [])];
         VDict [("query", VStr "Revenue Q2"); ("plot", VDict [])] ])))
    "ai_generated_plots.json"
  = Ok [ VDict [("query", VStr "Revenue Q1");
                ("timestamp", VStr "2024-01-01T00:00:00"); ("plot", VDict [])];
         VDict [("query", VStr "Revenue Q2"); ("plot", VDict [])] ].
Proof.
  apply (export_reload Iso.parse
    (fun _ => Text (Some
      (JArray [ JObject [("query", JString "Revenue Q2"); ("plot", JObject [])];
                JObject [("query", JString "Revenue Q1");
                         ("timestamp", JString "2024-01-01T00:00:00");
                         ("plot", JObject [])] ])))
    _ "plots.json" "ai_generated_plots.json"); reflexivity.
Defined.

(** ** Layout *)



Lemma update_property_dict (upd cur : Dict.t) :
  Lenient.update_property (VDict upd) (Some (VDict cur))
  = VDict (Lenient.perform_update upd cur).
Proof.
  reflexivity.
Qed.

Lemma update_property_replace (v : value) (old : option value) :
  (forall upd, v <> VDict upd) \/ (forall cur, old <> Some (VDict cur)) ->
  Lenient.update_property v old = v.
Proof.
  intros H. destruct v as [ | | | | | | upd]; try reflexivity.
  destruct old as [[ | | | | | | cur]|]; try reflexivity.
  destruct H as [H|H]; [destruct (H upd eq_refl) | destruct (H cur eq_refl)].
Qed.



Section Layout.
Variable plotly : Plotly.


End Layout.



(** The defaults alone, for a plot specification without a [layout]. *)
Example layout_defaults :
  exists fig,
    plotly_from_metadata Lenient.plotly (VDict []) = Ok fig /\
    Dict.lookup "margin" (fig_layout fig) = Some (VDict default_margin).
Proof. eexists. split; reflexivity. Qed.

(** A plotly that rejects the caller's layout makes the builder raise. *)
Example layout_rejected (plotly : Plotly) (defaults : Dict.t) :
  layout_update plotly (figure_layout plotly) default_layout = Ok defaults ->
  layout_update plotly defaults [("foo", VInt 1)] = Raise ValueError ->
  plotly_from_metadata plotly (VDict [("layout", VDict [("foo", VInt 1)])])
  = Raise ValueError.
Proof.
  intros Hdefaults Hfoo. unfold plotly_from_metadata, update_layout. cbn.
  rewrite Hdefaults. cbn. rewrite Hfoo. reflexivity.
Qed.

(** ** Cached loader *)

(** C9, as the code has it.  The cache is keyed by the path alone.  While
    every kept result is what a load would return now, which holds for the
    empty cache and keeps holding as long as the files behind the cached
    paths keep their content, a cached call returns what an uncached load
    returns and leaves the cache in that state.  A call whose path is in
    the cache returns the kept result whatever the file has become. *)
Theorem cached_load_fresh (fromisoformat : string -> option datetime)
    (fs : filesystem) (c : gmap string (list value)) (path : string) :
  cache_fresh fromisoformat fs c ->
  fst (load_results_cached fromisoformat fs c path)
  = load_results fromisoformat fs path /\
  cache_fresh fromisoformat fs (snd (load_results_cached fromisoformat fs c path)) /\
  cache_fresh fromisoformat fs ∅ /\
  (forall fs' : filesystem,
     (forall p r, c !! p = Some r -> fs' p = fs p) ->
     cache_fresh fromisoformat fs' c) /\
  (forall (fs' : filesystem) r,
     c !! path = Some r ->
     load_results_cached fromisoformat fs' c path = (Ok r, c)).
Proof.
  intros Hfresh. unfold load_results_cached. repeat split.
  - destruct (c !! path) as [r|] eqn:Hc; simpl.
    + symmetry. apply Hfresh, Hc.
    + destruct (load_results fromisoformat fs path); reflexivity.
  - destruct (c !! path) as [r|] eqn:Hc; simpl; [exact Hfresh|].
    destruct (load_results fromisoformat fs path) as [r|e] eqn:Hload; simpl;
      [|exact Hfresh].
    intros p r'. destruct (decide (path = p)) as [<-|Hne].
    + rewrite lookup_insert_eq. congruence.
    + rewrite lookup_insert_ne by exact Hne. apply Hfresh.
  - intros p r. rewrite lookup_empty. discriminate.
  - intros fs' Hsame p r Hp. unfold load_results.
    rewrite (Hsame p r Hp). apply (Hfresh p r Hp).
  - intros fs' r ->. reflexivity.
Qed.

(** C9 as stated fails: the first call finds no file and keeps the empty
    list for the path; the file then appears, and the cached call still
    returns the empty list while an uncached load returns the entry. *)
Lemma cached_load_stale :
  load_results_cached Iso.parse (fun _ => Missing) ∅ "plots.json"
  = (Ok [], {["plots.json" := []]}) /\
  load_results_cached Iso.parse (fun _ => Text (Some one_plot))
    {["plots.json" := []]} "plots.json"
  = (Ok [], {["plots.json" := []]}) /\
  load_results Iso.parse (fun _ => Text (Some one_plot)) "plots.json"
  = Ok [VDict [("plot", VDict [])]].
Proof.
  unfold load_results_cached. split; [|split].
  - rewrite lookup_empty. simpl. rewrite insert_empty. reflexivity.
  - rewrite lookup_singleton_eq. reflexivity.
  - reflexivity.
Qed.

(** C9 on the empty cache: the first call is an uncached load. *)
Lemma cached_load_fresh_witness :
  fst (load_results_cached Iso.parse (fun _ => Text (Some one_plot)) ∅ "plots.json")
  = load_results Iso.parse (fun _ => Text (Some one_plot)) "plots.json".
Proof.
  refine (proj1 (cached_load_fresh Iso.parse (fun _ => Text (Some one_plot)) ∅
                   "plots.json" _)).
  intros p r. rewrite lookup_empty. discriminate.
Defined.

(** * Further properties of the code *)

(** ** When a load succeeds *)

Lemma comprehension_all_ok {A} (p : A -> result bool) (l kept : list A) :
  comprehension p l = Ok kept -> Forall (fun x => exists b, p x = Ok b) l.
Proof.
  revert kept. induction l as [|x l IH]; intros kept; simpl; [constructor|].
  destruct (p x) as [b|e] eqn:Hx; [|discriminate]. rewrite bind_ok.
  destruct (comprehension p l) as [r|e]; [|discriminate].
  intros _. constructor; [eauto | eapply IH; reflexivity].
Qed.

Lemma loadable_contains (v : value) :
  loadable v <->
  (exists b, contains "plot" v = Ok b) /\ (has_plot v = true -> is_dict v).
Proof.
  assert (Hcontainer : forall v : value,
            (exists b, contains "plot" v = Ok b) -> (forall d, v <> VDict d) ->
            (has_plot v = false <->
             (exists b, contains "plot" v = Ok b) /\
             (has_plot v = true -> is_dict v))).
  { intros w Hw Hnd. split.
    - intros H. split; [exact Hw|]. rewrite H. discriminate.
    - intros [_ H]. destruct (has_plot w); [|reflexivity].
      destruct (H eq_refl) as [d ->]. destruct (Hnd d eq_refl). }
  destruct v; cbn [loadable];
    try (apply Hcontainer; [eexists; reflexivity | discriminate]);
    try (split; [intros [] | intros [[? ?] _]; discriminate]).
  split; [|exact (fun _ => I)].
  intros _. split; [eexists; reflexivity | intros _; eexists; reflexivity].
Qed.

Lemma load_results_items (fromisoformat : string -> option datetime)
    (fs : filesystem) (path : string) (doc : json) (items : list value) :
  fs path = Text (Some doc) ->
  iterate (normalize (of_json doc)) = Ok items ->
  ((exists rs, load_results fromisoformat fs path = Ok rs) <->
   Forall loadable items).
Proof.
  intros Hfile Hitems. split.
  - intros [rs Hload]. unfold load_results in Hload.
    rewrite Hfile in Hload. cbv zeta in Hload. rewrite Hitems, bind_ok in Hload.
    destruct (comprehension (contains "plot") items) as [kept|e] eqn:Hkept;
      [|discriminate].
    rewrite bind_ok in Hload. apply sorted_entries in Hload as [Hd _].
    assert (Hall := comprehension_all_ok _ _ _ Hkept).
    apply comprehension_ok in Hkept. fold has_plot in Hkept. subst kept.
    apply Forall_forall. intros v Hv. apply loadable_contains. split.
    + apply (proj1 (Forall_forall _ _) Hall v Hv).
    + intros Hplot. apply (proj1 (Forall_forall _ _) Hd).
      apply list_elem_of_In, filter_In. split; [apply list_elem_of_In, Hv | exact Hplot].
  - intros Hall. unfold load_results. rewrite Hfile. cbv zeta.
    rewrite Hitems, bind_ok. rewrite (comprehension_pure _ has_plot).
    + rewrite bind_ok, sorted_aware; [eauto|].
      apply Forall_forall. intros v Hv. apply dict_has_aware_key.
      apply list_elem_of_In, filter_In in Hv as [Hv Hplot].
      apply list_elem_of_In in Hv.
      apply (proj1 (loadable_contains v) (proj1 (Forall_forall _ _) Hall v Hv)), Hplot.
    + eapply Forall_impl; [exact Hall|]. intros v Hv.
      apply loadable_contains in Hv as [[b Hb] _]. unfold has_plot. rewrite Hb.
      reflexivity.
Qed.

Lemma chars_without_plot (s : string) : List.filter has_plot (chars s) = [].
Proof.
  induction s as [|c s IH]; [reflexivity|].
  cbn [chars List.filter]. unfold has_plot at 1. simpl.
  rewrite andb_false_r. exact IH.
Qed.

(** X1.  A document that is an array loads exactly when each of its
    elements is an object, or a string or an array in which ["plot"] does
    not occur: one number, boolean or null among the elements makes the
    whole load raise, and so does a string or an array that contains
    ["plot"].  A document that is a single object always loads; one that
    is a string loads as the empty list; one that is a number, a boolean
    or null raises [TypeError]. *)
Theorem load_results_succeeds (fromisoformat : string -> option datetime)
    (fs : filesystem) (path : string) :
  (forall js,
     fs path = Text (Some (JArray js)) ->
     ((exists rs, load_results fromisoformat fs path = Ok rs) <->
      Forall loadable (map of_json js))) /\
  (forall m,
     fs path = Text (Some (JObject m)) ->
     exists rs, load_results fromisoformat fs path = Ok rs) /\
  (forall s,
     fs path = Text (Some (JString s)) ->
     load_results fromisoformat fs path = Ok []) /\
  (forall doc,
     fs path = Text (Some doc) ->
     match doc with
     | JNull | JBool _ | JInt _ | JFloat _ =>
         load_results fromisoformat fs path = Raise TypeError
     | _ => True
     end).
Proof.
  split; [|split; [|split]].
  - intros js Hfile. apply (load_results_items _ _ _ _ _ Hfile). reflexivity.
  - intros m Hfile.
    apply (load_results_items _ _ _ _ [of_json (JObject m)] Hfile); [reflexivity|].
    repeat constructor.
  - intros s Hfile. unfold load_results. rewrite Hfile. cbv zeta.
    change (iterate (normalize (of_json (JString s)))) with (Ok (chars s)).
    rewrite bind_ok, (comprehension_pure _ has_plot).
    + rewrite bind_ok, chars_without_plot. reflexivity.
    + clear. induction s as [|c s IH]; simpl; constructor; [reflexivity | exact IH].
  - intros doc Hfile. unfold load_results. rewrite Hfile.
    destruct doc; try exact I; reflexivity.
Qed.

(** X1 at the array [[{"plot": {}}, 5]]: the number is not loadable, so the
    load does not succeed. *)
Lemma load_results_succeeds_witness :
  (exists rs,
     load_results Iso.parse
       (fun _ => Text (Some (JArray [JObject [("plot", JObject [])]; JInt 5])))
       "plots.json" = Ok rs) <->
  Forall loadable [VDict [("plot", VDict [])]; VInt 5].
Proof.
  exact (proj1 (load_results_succeeds Iso.parse
                  (fun _ => Text (Some (JArray [JObject [("plot", JObject [])]; JInt 5])))
                  "plots.json") _ eq_refl).
Defined.

Example load_results_stray_number :
  load_results Iso.parse
    (fun _ => Text (Some (JArray [JObject [("plot", JObject [])]; JInt 5])))
    "plots.json" = Raise TypeError.
Proof. reflexivity. Qed.

(** ** What the loaded entries are *)

(** X2.  Every entry a load returns is a mapping with a [plot] key: it is
    never empty, and [result["plot"]] on it finds a value. *)
Theorem load_results_entries (fromisoformat : string -> option datetime)
    (fs : filesystem) (path : string) (rs : list value) :
  load_results fromisoformat fs path = Ok rs ->
  forall r, In r rs ->
    exists d plot,
      r = VDict d /\ subscript r "plot" = Ok plot /\ truthy r = true.
Proof.
  intros Hload r Hr.
  destruct (load_results_invariant _ _ _ _ Hload) as (Hd & _ & Hplot & _).
  apply list_elem_of_In in Hr.
  destruct (proj1 (Forall_forall _ _) Hd r Hr) as [d ->].
  assert (Hmem := proj1 (Forall_forall _ _) Hplot _ Hr).
  unfold has_plot in Hmem. simpl in Hmem. unfold Dict.mem in Hmem. simpl.
  destruct (Dict.lookup "plot" d) as [plot|] eqn:Hlook; [|discriminate].
  exists d, plot. repeat split. destruct d; [discriminate | reflexivity].
Qed.

(** X2 at the second entry of the example document of the specification. *)
Lemma load_results_entries_witness :
  exists d plot,
    VDict [("query", VStr "Revenue Q2");
           ("plot", VDict [("data", VList [VDict [("type", VStr "bar")]])])]
    = VDict d /\
    subscript
      (VDict [("query", VStr "Revenue Q2");
              ("plot", VDict [("data", VList [VDict [("type", VStr "bar")]])])])
      "plot" = Ok plot /\
    truthy
      (VDict [("query", VStr "Revenue Q2");
              ("plot", VDict [("data", VList [VDict [("type", VStr "bar")]])])])
    = true.
Proof.
  apply (load_results_entries Iso.parse (fun _ => Text (Some revenue_document))
           "plots.json" _ eq_refl).
  right. left. reflexivity.
Defined.

(** ** Sorting entries never raises *)

(** X3.  Comparing a naive datetime with an aware one raises [TypeError],
    yet sorting mappings by [parse_timestamp] never raises, whatever mix of
    naive and aware values the ISO parser returns: every key the function
    returns is aware, and the sorted list is a rearrangement of the
    input. *)
Theorem sorted_mappings_never_raise (fromisoformat : string -> option datetime)
    (l : list value) :
  Forall is_dict l ->
  (forall a b, is_aware a = true -> is_aware b = false ->
               datetime_lt a b = Raise TypeError /\
               datetime_lt b a = Raise TypeError) /\
  (forall v dt, parse_timestamp fromisoformat v = Ok dt -> is_aware dt = true) /\
  exists rs,
    sorted datetime_lt (parse_timestamp fromisoformat) true l = Ok rs /\
    Permutation rs l.
Proof.
  intros Hl. split; [|split].
  - intros a b Ha Hb. unfold datetime_lt. rewrite Ha, Hb. split; reflexivity.
  - intros v dt Hv. apply (parse_timestamp_ok _ _ _ Hv).
  - rewrite sorted_aware.
    + eexists. split; [reflexivity | apply sort_descending_perm].
    + eapply Forall_impl; [exact Hl|]. apply dict_has_aware_key.
Qed.

(** X3 with a parser that returns a naive value for one entry and an aware
    one for the other. *)
Lemma sorted_mappings_never_raise_witness :
  exists rs,
    sorted datetime_lt (parse_timestamp Iso.parse) true
      [ VDict [("timestamp", VStr "2024-01-01T00:00:00")];
        VDict [("timestamp", VStr "2024-01-01T00:00:00+05:00")] ] = Ok rs /\
    Permutation rs
      [ VDict [("timestamp", VStr "2024-01-01T00:00:00")];
        VDict [("timestamp", VStr "2024-01-01T00:00:00+05:00")] ].
Proof.
  refine (proj2 (proj2 (sorted_mappings_never_raise Iso.parse
    [ VDict [("timestamp", VStr "2024-01-01T00:00:00")];
      VDict [("timestamp", VStr "2024-01-01T00:00:00+05:00")] ] _))).
  repeat constructor; eexists; reflexivity.
Defined.

(** ** The loaded order is determined *)

(** X4.  The list a load returns is the only arrangement of the kept
    elements that is in descending order of rank and keeps the elements of
    each rank in document order: any stable sort gives the same list. *)
Theorem load_results_determined (fromisoformat : string -> option datetime)
    (fs : filesystem) (path : string) (doc : json) (rs : list value) :
  fs path = Text (Some doc) ->
  load_results fromisoformat fs path = Ok rs ->
  exists items,
    iterate (normalize (of_json doc)) = Ok items /\
    forall rs',
      StronglySorted (descending (timestamp_rank fromisoformat)) rs' ->
      (forall k,
         of_rank (timestamp_rank fromisoformat) k rs'
         = of_rank (timestamp_rank fromisoformat) k (List.filter has_plot items)) ->
      rs' = rs.
Proof.
  intros Hfile Hload.
  destruct (load_results_ok _ _ _ _ _ Hfile Hload) as (items & Hitems & _ & ->).
  exists items. split; [exact Hitems|].
  intros rs' Hsorted Hsame. apply sort_descending_unique; assumption.
Qed.

Lemma load_results_determined_witness :
  exists items,
    iterate (normalize (of_json revenue_document)) = Ok items /\
    forall rs',
      StronglySorted (descending (timestamp_rank Iso.parse)) rs' ->
      (forall k,
         of_rank (timestamp_rank Iso.parse) k rs'
         = of_rank (timestamp_rank Iso.parse) k (List.filter has_plot items)) ->
      rs' =
      [ VDict [("query", VStr "Revenue Q1");
               ("timestamp", VStr "2024-01-01T00:00:00");
               ("plot", VDict [("data", VList [VDict [("type", VStr "line")]])])];
        VDict [("query", VStr "Revenue Q2");
               ("plot", VDict [("data", VList [VDict [("type", VStr "bar")]])])] ].
Proof.
  exact (load_results_determined Iso.parse (fun _ => Text (Some revenue_document))
           "plots.json" revenue_document _ eq_refl eq_refl).
Defined.

(** ** When the chart builder succeeds *)

Lemma map_VDict_inj (l l' : list Dict.t) : map VDict l = map VDict l' -> l = l'.
Proof.
  revert l'. induction l as [|d l IH]; intros [|d' l']; try discriminate.
  - reflexivity.
  - intros [= -> H]. f_equal. apply IH, H.
Qed.

Section BuilderSucceeds.
Variable plotly : Plotly.

Lemma add_one_ok (fig fig' : Figure) (v : value) :
  add_one plotly fig v = Ok fig' -> trace_ok v.
Proof.
  unfold add_one, trace_ok, type_hashable.
  destruct v as [ | | | | | | t]; try discriminate.
  rewrite get_dict, bind_ok. intros H. exists t. split; [reflexivity|].
  destruct (Dict.lookup "type" t) as [[ | | | | | | ]|]; try exact I; discriminate.
Qed.

Lemma for_each_add_one_ok (items : list value) (fig fig' : Figure) :
  for_each (add_one plotly) items fig = Ok fig' -> Forall trace_ok items.
Proof.
  revert fig. induction items as [|v items IH]; intros fig; [constructor|].
  cbn [for_each]. destruct (add_one plotly fig v) as [fig1|e] eqn:Hv; [|discriminate].
  rewrite bind_ok. intros H. constructor; [eapply add_one_ok, Hv | eapply IH, H].
Qed.

Lemma trace_ok_dicts (items : list value) :
  Forall trace_ok items ->
  exists traces, items = map VDict traces /\ Forall type_hashable traces.
Proof.
  induction 1 as [|v items [t [-> Ht]] _ (traces & -> & Htraces)].
  - exists []. split; [reflexivity | constructor].
  - exists (t :: traces). split; [reflexivity | constructor; assumption].
Qed.

(** What the builder returns for the traces it is given, whatever [data]
    is: a string or a dict is iterated like a list. *)
Lemma plotly_from_metadata_items (spec : Dict.t) (ts : list Dict.t)
    (kwargs : Dict.t) :
  iterate (field spec "data" (VList [])) = Ok (map VDict ts) ->
  Forall type_hashable ts ->
  field spec "layout" (VDict []) = VDict kwargs ->
  plotly_from_metadata plotly (VDict spec)
  = chart plotly (concat (map contribution ts)) kwargs.
Proof.
  intros Hdata Hts Hlayout. unfold plotly_from_metadata, chart.
  rewrite !get_dict. fold (field spec "data" (VList [])).
  fold (field spec "layout" (VDict [])).
  rewrite bind_ok, Hdata, bind_ok, for_each_add_one, for_each_add_trace by assumption.
  destruct (traverse (make_trace plotly) (concat (map contribution ts)))
    as [kept|e]; [|reflexivity].
  rewrite !bind_ok. unfold update_layout. cbn [fig_data fig_layout new_figure app].
  destruct (layout_update plotly (figure_layout plotly) default_layout)
    as [defaults|e]; [|reflexivity].
  rewrite !bind_ok, Hlayout. reflexivity.
Qed.

(** What a figure the builder returns is made of. *)
Lemma plotly_from_metadata_ok (spec : Dict.t) (fig : Figure) :
  plotly_from_metadata plotly (VDict spec) = Ok fig ->
  exists ts kwargs,
    iterate (field spec "data" (VList [])) = Ok (map VDict ts) /\
    Forall type_hashable ts /\
    field spec "layout" (VDict []) = VDict kwargs /\
    chart plotly (concat (map contribution ts)) kwargs = Ok fig.
Proof.
  intros Hfig. assert (Hrun := Hfig). unfold plotly_from_metadata in Hrun.
  rewrite !get_dict in Hrun. fold (field spec "data" (VList [])) in Hrun.
  fold (field spec "layout" (VDict [])) in Hrun. rewrite bind_ok in Hrun.
  destruct (iterate (field spec "data" (VList []))) as [items|e] eqn:Hitems;
    [|discriminate].
  rewrite bind_ok in Hrun.
  destruct (for_each (add_one plotly) items (new_figure plotly)) as [fig1|e] eqn:Hloop;
    [|discriminate].
  rewrite bind_ok in Hrun.
  destruct (update_layout plotly fig1 default_layout) as [fig2|e]; [|discriminate].
  rewrite !bind_ok in Hrun.
  destruct (field spec "layout" (VDict [])) as [ | | | | | | kwargs] eqn:Hlayout;
    try discriminate.
  destruct (trace_ok_dicts _ (for_each_add_one_ok _ _ _ Hloop)) as (ts & -> & Hts).
  exists ts, kwargs. split; [reflexivity|]. split; [exact Hts|].
  split; [reflexivity|].
  rewrite <- (plotly_from_metadata_items spec ts kwargs Hitems Hts Hlayout).
  exact Hfig.
Qed.

(** The parts of a chart that plotly has accepted. *)
Lemma chart_ok (calls : list trace) (layout : Dict.t) (fig : Figure) :
  chart plotly calls layout = Ok fig ->
  traverse (make_trace plotly) calls = Ok (fig_data fig) /\
  exists defaults,
    layout_update plotly (figure_layout plotly) default_layout = Ok defaults /\
    layout_update plotly defaults layout = Ok (fig_layout fig).
Proof.
  unfold chart.
  destruct (traverse (make_trace plotly) calls) as [kept|e]; [|discriminate].
  rewrite bind_ok.
  destruct (layout_update plotly (figure_layout plotly) default_layout)
    as [defaults|e]; [|discriminate].
  rewrite bind_ok.
  destruct (layout_update plotly defaults layout) as [final|e] eqn:Hfinal;
    [|discriminate].
  rewrite bind_ok. intros H. injection H as <-.
  split; [reflexivity|]. exists defaults. split; [reflexivity | exact Hfinal].
Qed.

(** X5.  The chart builder returns a figure exactly when [data] (or the
    empty list, if absent) can be iterated, each element it yields is a
    mapping whose [type] is not a list or a dict, [layout] (if present) is
    a mapping, and plotly accepts the calls made for the traces, the
    defaults and the caller's layout; on anything else it raises.  A plot
    specification that is not a mapping raises [AttributeError]. *)
Theorem plotly_from_metadata_succeeds (spec : Dict.t) :
  ((exists fig, plotly_from_metadata plotly (VDict spec) = Ok fig) <->
   exists items ts kwargs,
     iterate (field spec "data" (VList [])) = Ok items /\
     Forall trace_ok items /\
     items = map VDict ts /\
     field spec "layout" (VDict []) = VDict kwargs /\
     exists fig, chart plotly (concat (map contribution ts)) kwargs = Ok fig) /\
  (forall v, (forall d, v <> VDict d) ->
             plotly_from_metadata plotly v = Raise AttributeError).
Proof.
  split.
  - split.
    + intros [fig Hfig].
      destruct (plotly_from_metadata_ok _ _ Hfig)
        as (ts & kwargs & Hts & Hok & Hl & Hchart).
      exists (map VDict ts), ts, kwargs. split; [exact Hts|]. split.
      * apply Forall_map. eapply Forall_impl; [exact Hok|].
        intros t Ht. exists t. split; [reflexivity | exact Ht].
      * split; [reflexivity|]. split; [exact Hl | eauto].
    + intros (items & ts & kwargs & Hitems & Hok & -> & Hlayout & fig & Hfig).
      exists fig. rewrite <- Hfig.
      apply (plotly_from_metadata_items spec ts kwargs Hitems); [|exact Hlayout].
      destruct (trace_ok_dicts _ Hok) as (ts' & Heq & Hts').
      apply map_VDict_inj in Heq. subst ts'. exact Hts'.
  - intros v Hv. destruct v as [ | | | | | | d]; try reflexivity.
    destruct (Hv d eq_refl).
Qed.

End BuilderSucceeds.

(** X5 at [{"data": [{"type": "bar"}, 7]}]: the number is not a mapping. *)
Lemma plotly_from_metadata_succeeds_witness :
  ~ exists fig,
      plotly_from_metadata Lenient.plotly
        (VDict [("data", VList [VDict [("type", VStr "bar")]; VInt 7])]) = Ok fig.
Proof.
  intros Hfig.
  apply (proj1 (plotly_from_metadata_succeeds Lenient.plotly
                  [("data", VList [VDict [("type", VStr "bar")]; VInt 7])])) in Hfig.
  destruct Hfig as (items & ts & kwargs & Hitems & Hok & _).
  injection Hitems as <-. inversion Hok as [|v l _ Hrest]. subst.
  inversion Hrest as [|v l [t [Ht _]] _]. discriminate.
Defined.

Example plotly_from_metadata_stray_number (plotly : Plotly) :
  make_trace plotly (Bar VNone VNone VNone (VDict []) VNone (VStr "auto"))
  = Ok (Bar VNone VNone VNone (VDict []) VNone (VStr "auto")) ->
  plotly_from_metadata plotly
    (VDict [("data", VList [VDict [("type", VStr "bar")]; VInt 7])])
  = Raise AttributeError.
Proof.
  intros H. unfold plotly_from_metadata. cbn. unfold add_trace. rewrite H.
  reflexivity.
Qed.

(** ** Traces shown and traces counted *)

Lemma dispatch_supported (ty : string) :
  (exists render, dispatch ty = Some render) <->
  In ty ["bar"; "line"; "scatter"; "pie"].
Proof.
  unfold dispatch. cbn [In].
  destruct (String.eqb_spec ty "bar") as [->|Hbar]; [split; eauto|].
  destruct (String.eqb_spec ty "line") as [->|Hline]; [split; eauto|].
  destruct (String.eqb_spec ty "scatter") as [->|Hscatter]; [split; eauto|].
  destruct (String.eqb_spec ty "pie") as [->|Hpie]; [split; eauto 6|].
  split; [intros [render [=]] | intuition congruence].
Qed.

Lemma contribution_length (t : Dict.t) :
  (length (contribution t) <= 1)%nat /\
  (length (contribution t) = 1%nat <-> supported t).
Proof.
  unfold contribution, supported.
  destruct (Dict.lookup "type" t) as [[ | | | | ty | | ]|];
    try (split; [cbn [length]; lia | split; [discriminate | intros [ty' [[=] _]]]]).
  destruct (dispatch ty) as [render|] eqn:Hty; cbn [length]; (split; [lia|]).
  - split; [|reflexivity]. intros _. exists ty. split; [reflexivity|].
    apply dispatch_supported. eauto.
  - split; [discriminate|]. intros [ty' [[= <-] Hin]].
    apply dispatch_supported in Hin as [render Hrender]. congruence.
Qed.

Lemma contributions_length (ts : list Dict.t) :
  (length (concat (map contribution ts)) <= length ts)%nat /\
  (length (concat (map contribution ts)) = length ts <-> Forall supported ts).
Proof.
  induction ts as [|t ts [IHle IHeq]]; simpl.
  - split; [lia|]. split; [constructor | reflexivity].
  - rewrite length_app. destruct (contribution_length t) as [Hle Heq]. split; [lia|].
    rewrite Forall_cons, <- Heq, <- IHeq. lia.
Qed.

(** ** What the chart builder reads *)

(** X7.  The chart builder reads the keys [data] and [layout] of a plot
    specification and nothing else: two specifications that agree on both
    give the same result, figure or exception.  When two specifications
    both build, the traces are the same if [data] is, and the layout is
    the same if [layout] is: the overrides never touch the traces and the
    traces never touch the layout. *)
Theorem plotly_from_metadata_reads (plotly : Plotly) (spec spec' : Dict.t) :
  (Dict.lookup "data" spec = Dict.lookup "data" spec' ->
   Dict.lookup "layout" spec = Dict.lookup "layout" spec' ->
   plotly_from_metadata plotly (VDict spec) = plotly_from_metadata plotly (VDict spec')) /\
  (forall fig fig',
     plotly_from_metadata plotly (VDict spec) = Ok fig ->
     plotly_from_metadata plotly (VDict spec') = Ok fig' ->
     (Dict.lookup "data" spec = Dict.lookup "data" spec' ->
      fig_data fig = fig_data fig') /\
     (Dict.lookup "layout" spec = Dict.lookup "layout" spec' ->
      fig_layout fig = fig_layout fig')).
Proof.
  split.
  - intros Hdata Hlayout. unfold plotly_from_metadata.
    rewrite !get_dict, Hdata, Hlayout. reflexivity.
  - intros fig fig' Hfig Hfig'.
    destruct (plotly_from_metadata_ok _ _ _ Hfig) as (ts & kw & Hts & _ & Hkw & Hchart).
    destruct (plotly_from_metadata_ok _ _ _ Hfig') as (ts' & kw' & Hts' & _ & Hkw' & Hchart').
    destruct (chart_ok _ _ _ _ Hchart) as (Hkept & defaults & Hdefaults & Hfinal).
    destruct (chart_ok _ _ _ _ Hchart') as (Hkept' & defaults' & Hdefaults' & Hfinal').
    unfold field in *. split.
    + intros Hdata. rewrite Hdata, Hts' in Hts.
      injection Hts as Hts. apply map_VDict_inj in Hts. congruence.
    + intros Hlayout. rewrite Hlayout, Hkw' in Hkw. congruence.
Qed.

(** ** Searching *)

Lemma lower_char_idempotent (c : ascii) : lower_char (lower_char c) = lower_char c.
Proof. destruct c as [[] [] [] [] [] [] [] []]; reflexivity. Qed.

Lemma lower_idempotent (s : string) : lower (lower s) = lower s.
Proof.
  induction s as [|c s IH]; [reflexivity|].
  cbn [lower]. rewrite lower_char_idempotent, IH. reflexivity.
Qed.

Lemma lower_empty (s : string) : lower s = "" <-> s = "".
Proof. destruct s; simpl; split; congruence. Qed.

Lemma eqb_empty_lower (s t : string) :
  lower s = lower t -> String.eqb s "" = String.eqb t "".
Proof.
  intros H. destruct (String.eqb_spec s "") as [->|Hs], (String.eqb_spec t "") as [->|Ht];
    try reflexivity.
  - simpl in H. symmetry in H. apply (proj1 (lower_empty t)) in H. contradiction.
  - simpl in H. apply (proj1 (lower_empty s)) in H. contradiction.
Qed.

(** X11.  The search ignores the case of the text typed: two search texts
    that are equal up to case give the same result, indices or exception,
    on every result list; in particular a text and its lower-cased form
    do. *)
Theorem filtered_indices_ignores_case (results : list value)
    (search_term search_term' : string) :
  (lower search_term = lower search_term' ->
   filtered_indices results search_term = filtered_indices results search_term') /\
  filtered_indices results (lower search_term)
  = filtered_indices results search_term.
Proof.
  assert (Hsame : forall s t, lower s = lower t ->
            filtered_indices results s = filtered_indices results t).
  { intros s t H. unfold filtered_indices.
    rewrite (eqb_empty_lower s t H), H. reflexivity. }
  split; [apply Hsame|]. apply Hsame, lower_idempotent.
Qed.

(** X11 at the search texts ["Q2"] and ["q2"]. *)
Lemma filtered_indices_ignores_case_witness :
  filtered_indices
    [VDict [("query", VStr "Revenue Q1")]; VDict [("query", VStr "Revenue Q2")]] "Q2"
  = filtered_indices
      [VDict [("query", VStr "Revenue Q1")]; VDict [("query", VStr "Revenue Q2")]] "q2".
Proof.
  exact (proj1 (filtered_indices_ignores_case
                  [VDict [("query", VStr "Revenue Q1")];
                   VDict [("query", VStr "Revenue Q2")]] "Q2" "q2") eq_refl).
Defined.

Lemma append_assoc (a b c : string) :
  String.append (String.append a b) c = String.append a (String.append b c).
Proof.
  induction a as [|x a IH]; [reflexivity|].
  change (String x (String.append (String.append a b) c)
          = String x (String.append a (String.append b c))).
  f_equal. exact IH.
Qed.

Lemma substring_trans (a b c : string) :
  substring a b -> substring b c -> substring a c.
Proof.
  intros (p & q & ->) (p' & q' & ->).
  exists (String.append p' p), (String.append q q').
  rewrite !append_assoc. reflexivity.
Qed.

Lemma substring_empty (a : string) : substring a "" -> a = "".
Proof.
  intros (p & q & H). destruct p; [|discriminate]. destruct a; [reflexivity|].
  discriminate.
Qed.

Lemma queries_ok (results qs : list value) :
  queries results = Ok qs ->
  exists entries,
    results = map VDict entries /\
    qs = map (fun d => field d "query" (VStr "Unnamed Query")) entries.
Proof.
  unfold queries. revert qs. induction results as [|r results IH]; intros qs.
  - intros [= <-]. exists []. split; reflexivity.
  - cbn [traverse]. destruct r as [ | | | | | | d]; try discriminate.
    rewrite get_dict, bind_ok.
    destruct (traverse _ results) as [qs'|e]; [|discriminate].
    rewrite bind_ok. intros [= <-].
    destruct (IH qs' eq_refl) as (entries & -> & ->).
    exists (d :: entries). split; reflexivity.
Qed.

Lemma zip_seq_covers {X} (l : list X) (start : nat) (x : X) :
  In x l -> exists i, In (i, x) (zip (seq start (length l)) l).
Proof.
  revert start. induction l as [|y l IH]; intros start; [intros []|].
  intros [->|Hx].
  - exists start. left. reflexivity.
  - destruct (IH (S start) Hx) as [i Hi]. exists i. right. exact Hi.
Qed.

(** A search with a text that succeeds has met mappings whose [query],
    when present, is a string. *)
Lemma filtered_indices_ok (results : list value) (search_term : string)
    (idx : list nat) :
  search_term <> "" ->
  filtered_indices results search_term = Ok idx ->
  exists entries, results = map VDict entries /\ Forall query_is_text entries.
Proof.
  intros Hne. unfold filtered_indices.
  destruct (queries results) as [qs|e] eqn:Hqs; [|discriminate].
  rewrite bind_ok. apply String.eqb_neq in Hne. rewrite Hne. cbn [negb].
  destruct (comprehension _ (enumerate qs)) as [hits|e] eqn:Hhits; [|discriminate].
  intros _. apply comprehension_all_ok in Hhits.
  destruct (queries_ok _ _ Hqs) as (entries & -> & ->).
  exists entries. split; [reflexivity|].
  apply Forall_forall. intros d Hd. apply list_elem_of_In in Hd.
  destruct (zip_seq_covers
              (map (fun d => field d "query" (VStr "Unnamed Query")) entries) 0
              (field d "query" (VStr "Unnamed Query"))) as [i Hi].
  { exact (in_map (fun d => field d "query" (VStr "Unnamed Query")) entries d Hd). }
  apply list_elem_of_In in Hi.
  destruct (proj1 (Forall_forall _ _) Hhits _ Hi) as [b Hb]. cbn [snd] in Hb.
  unfold query_is_text, field in *.
  destruct (Dict.lookup "query" d) as [[ | | | | | | ]|]; try exact I; discriminate.
Qed.

(** X12.  Typing more narrows the search: when the lower-cased form of a
    search text occurs in that of a longer one, every index the longer text
    finds is found by the shorter one too.  Stated for search texts that
    are ASCII text. *)
Theorem filtered_indices_narrows (results : list value) (shorter longer : string)
    (found found' : list nat) :
  shorter <> "" ->
  is_ascii shorter = true ->
  is_ascii longer = true ->
  substring (lower shorter) (lower longer) ->
  filtered_indices results shorter = Ok found ->
  filtered_indices results longer = Ok found' ->
  forall i, In i found' -> In i found.
Proof.
  intros Hne _ _ Hsub Hshort Hlong i Hi.
  assert (Hne' : longer <> "").
  { intros ->. apply (substring_empty (lower shorter)) in Hsub.
    apply (proj1 (lower_empty shorter)) in Hsub. contradiction. }
  destruct (filtered_indices_ok _ _ _ Hne Hshort) as (entries & -> & Htext).
  destruct (filtered_indices_displayed entries shorter Htext)
    as (idx & Hrun & _ & _ & Hin).
  destruct (filtered_indices_displayed entries longer Htext)
    as (idx' & Hrun' & _ & _ & Hin').
  rewrite Hshort in Hrun. rewrite Hlong in Hrun'.
  injection Hrun as <-. injection Hrun' as <-.
  apply (Hin Hne). apply (Hin' Hne') in Hi as [d [Hd Hs]].
  exists d. split; [exact Hd|]. eapply substring_trans; eassumption.
Qed.

(** X12 at the texts ["rev"] and ["revenue q2"]. *)
Lemma filtered_indices_narrows_witness :
  forall_indices_found [1%nat] [0%nat; 1%nat].
Proof.
  unfold forall_indices_found.
  apply (filtered_indices_narrows
           [VDict [("query", VStr "Revenue Q1")]; VDict [("query", VStr "Revenue Q2")]]
           "rev" "revenue q2" [0%nat; 1%nat] [1%nat]).
  - discriminate.
  - reflexivity.
  - reflexivity.
  - exists "", "enue q2". reflexivity.
  - reflexivity.
  - reflexivity.
Defined.

(** ** Drawing *)

Lemma ui_bind_run {A B} (r : result A) (f : A -> UI.ui B) :
  (UI.run r ≫= f) = match r with Ok a => f a | Raise e => ([], Raise e) end.
Proof.
  destruct r as [a|e]; [|reflexivity].
  unfold mbind, UI.ui_bind, UI.run. destruct (f a). reflexivity.
Qed.

Lemma ui_bind_show {B} (p : UI.place) (e : UI.element) (k : unit -> UI.ui B) :
  (UI.show p e ≫= k) = ((p, e) :: fst (k tt), snd (k tt)).
Proof. unfold mbind, UI.ui_bind, UI.show. destruct (k tt). reflexivity. Qed.

Lemma ui_bind_snd {A B} (m : UI.ui A) (f : A -> UI.ui B) :
  snd (m ≫= f) = match snd m with Ok a => snd (f a) | Raise e => Raise e end.
Proof.
  destruct m as [shown [a|e]]; [|reflexivity].
  unfold mbind, UI.ui_bind. cbn [snd]. destruct (f a). reflexivity.
Qed.

Lemma ui_bind_fst {A B} (m : UI.ui A) (f : A -> UI.ui B) :
  fst (m ≫= f)
  = fst m ++ match snd m with Ok a => fst (f a) | Raise _ => [] end.
Proof.
  destruct m as [shown [a|e]]; unfold mbind, UI.ui_bind; cbn [fst snd].
  - destruct (f a). reflexivity.
  - rewrite app_nil_r. reflexivity.
Qed.

Lemma ui_bind_ok {A B} (m : UI.ui A) (f : A -> UI.ui B) (a : A) :
  snd m = Ok a -> (m ≫= f) = (fst m ++ fst (f a), snd (f a)).
Proof.
  destruct m as [shown r]. cbn [fst snd]. intros ->.
  unfold mbind, UI.ui_bind. destruct (f a). reflexivity.
Qed.

Lemma ui_bind_raise {A B} (m : UI.ui A) (f : A -> UI.ui B) (e : exn) :
  snd m = Raise e -> (m ≫= f) = (fst m, Raise e).
Proof. destruct m as [shown r]. cbn [fst snd]. intros ->. reflexivity. Qed.

Lemma within_snd {A} (p : UI.place) (m : UI.ui A) : snd (UI.within p m) = snd m.
Proof. reflexivity. Qed.

(** A metric with a value Streamlit shows, and one it does not. *)
Lemma ui_bind_metric {B} (p : UI.place) (label : string) (v : value)
    (k : unit -> UI.ui B) :
  (UI.metric p label v ≫= k)
  = match v with
    | VList _ | VDict _ => ([], Raise TypeError)
    | _ => ((p, UI.Metric label v) :: fst (k tt), snd (k tt))
    end.
Proof.
  destruct v; try apply ui_bind_show; reflexivity.
Qed.

(** X8.  Drawing the chart never raises, whatever the entry is: either the
    plot of the entry builds and the chart is shown, or building it raises
    (as does an entry with no [plot], or one that is not a mapping) and
    the error message is shown with the exception under it. *)
Theorem render_visualization_never_raises (plotly : Plotly) (result : value) :
  snd (UI.render_visualization plotly result) = Ok tt /\
  ((exists fig,
      (subscript result "plot" ≫= plotly_from_metadata plotly) = Ok fig /\
      fst (UI.render_visualization plotly result) = [(UI.Page, UI.PlotlyChart fig)]) \/
   (exists e,
      (subscript result "plot" ≫= plotly_from_metadata plotly) = Raise e /\
      fst (UI.render_visualization plotly result)
      = [(UI.Page, UI.Error "Plot rendering failed."); (UI.Page, UI.Code e)])).
Proof.
  unfold UI.render_visualization.
  destruct (subscript result "plot" ≫= plotly_from_metadata plotly) as [fig|e].
  - split; [reflexivity|]. left. exists fig. split; reflexivity.
  - split; [reflexivity|]. right. exists e. split; reflexivity.
Qed.

Example render_visualization_no_plot (plotly : Plotly) :
  UI.render_visualization plotly (VDict [("query", VStr "q")])
  = ([(UI.Page, UI.Error "Plot rendering failed."); (UI.Page, UI.Code KeyError)],
     Ok tt).
Proof. reflexivity. Qed.

Lemma render_visualization_shape (plotly : Plotly) (result : value) :
  exists shown, UI.render_visualization plotly result = (shown, Ok tt).
Proof.
  unfold UI.render_visualization.
  destruct (subscript result "plot" ≫= plotly_from_metadata plotly);
    eexists; reflexivity.
Qed.

(** ** The header *)

Ltac ui_step :=
  first [rewrite ui_bind_show | rewrite ui_bind_run | rewrite ui_bind_metric];
  cbv beta iota.

(** The page of a header that is drawn to the end. *)
Lemma render_header_page (d : Dict.t) (label : string) (data : value) (n : nat) :
  detect_chart_type (field d "plot" (VDict [])) = Ok label ->
  metric_value (field d "timestamp" (VStr "N/A")) ->
  get (field d "plot" (VDict [])) "data" (VList []) = Ok data ->
  len data = Ok n ->
  UI.render_header (VDict d)
  = ([ (UI.Page, UI.Subheader (field d "query" (VStr "Unnamed Query")));
       (UI.Page, UI.Columns 3);
       (UI.Column 1, UI.Metric "Chart Type" (VStr label));
       (UI.Column 2, UI.Metric "Generated At" (field d "timestamp" (VStr "N/A")));
       (UI.Column 3, UI.Metric "Traces" (VInt (Z.of_nat n)));
       (UI.Page, UI.Markdown "---") ],
     Ok tt).
Proof.
  intros Hlabel Htime Hdata Hn. unfold UI.render_header.
  rewrite !get_dict. fold (field d "plot" (VDict [])).
  fold (field d "timestamp" (VStr "N/A")).
  fold (field d "query" (VStr "Unnamed Query")).
  do 4 ui_step. rewrite Hlabel. cbv beta iota. do 2 ui_step.
  destruct (field d "timestamp" (VStr "N/A")) as [ | tb | tn | tbits | ts | tl | td];
    try destruct Htime;
    cbv beta iota; do 2 ui_step; rewrite Hdata; cbv beta iota; ui_step;
    rewrite Hn; cbv beta iota; ui_step; reflexivity.
Qed.

(** Whether the header of a mapping is drawn to the end. *)
Lemma render_header_snd (d : Dict.t) :
  snd (UI.render_header (VDict d))
  = (_ ← detect_chart_type (field d "plot" (VDict []));
     _ ← match field d "timestamp" (VStr "N/A") with
         | VList _ | VDict _ => Raise TypeError
         | _ => Ok tt
         end;
     data ← get (field d "plot" (VDict [])) "data" (VList []);
     _ ← len data;
     Ok tt).
Proof.
  unfold UI.render_header.
  rewrite !get_dict. fold (field d "plot" (VDict [])).
  fold (field d "timestamp" (VStr "N/A")).
  do 4 ui_step. cbn [snd].
  destruct (detect_chart_type (field d "plot" (VDict []))) as [label|e];
    [|reflexivity].
  cbv beta iota. do 2 ui_step. rewrite bind_ok.
  destruct (field d "timestamp" (VStr "N/A")) as [ | tb | tn | tbits | ts | tl | td];
    try reflexivity;
    cbn [snd]; rewrite bind_ok; do 2 ui_step;
    (destruct (get (field d "plot" (VDict [])) "data" (VList [])) as [data|e];
     [|reflexivity]);
    cbv beta iota; ui_step; rewrite bind_ok;
    (destruct (len data) as [n|e]; [|reflexivity]);
    cbv beta iota; ui_step; reflexivity.
Qed.

Lemma header_data_checks (spec : Dict.t) :
  (_ ← detect_chart_type (VDict spec);
   data ← get (VDict spec) "data" (VList []);
   _ ← len data;
   Ok tt) = Ok tt <-> header_data (field spec "data" (VList [])).
Proof.
  unfold detect_chart_type. rewrite !get_dict.
  fold (field spec "data" (VList [])).
  destruct (field spec "data" (VList []))
    as [ | b | n | bits | [|c s] | [|[ | b | n | bits | s | l' |t] l] | [|kv dd]];
    rewrite ?bind_ok; cbn [truthy negb first_item header_data len].
  all: try (split; [discriminate | intros []]).
  - destruct b; split; (discriminate || intros []).
  - destruct (n =? 0); split; (discriminate || intros []).
  - destruct (float_is_zero bits); split; (discriminate || intros []).
  - split; [exact (fun _ => I) | reflexivity].
  - split; [exact (fun _ => I) | reflexivity].
  - rewrite !bind_ok, get_dict. fold (field t "type" (VStr "Unknown")).
    destruct (field t "type" (VStr "Unknown")) as [ | | | | ty | | ];
      try (split; [discriminate | intros [? ?]; discriminate]).
    split; [intros _; exists ty; reflexivity | reflexivity].
  - split; [exact (fun _ => I) | reflexivity].
Qed.

(** X14.  The header of an entry is drawn to the end exactly when the entry
    is a mapping, its [plot] (if it has one) is a mapping, the [data] of
    the plot is absent, empty, or a list whose first trace is a mapping
    with a string or nothing for its [type], and its [timestamp] (if it
    has one) is not a list or a mapping.  Every other entry makes
    [render_header] raise: a [data] that is null or a number, a first trace
    that is not a mapping, a [type] that is not a string, a [timestamp]
    that [st.metric] does not show. *)
Theorem render_header_draws (result : value) :
  snd (UI.render_header result) = Ok tt <-> drawable result.
Proof.
  destruct result as [ | | | | | | d];
    try (split; [discriminate | intros (d & spec & Hd & _); discriminate]).
  rewrite render_header_snd. unfold drawable.
  destruct (field d "plot" (VDict [])) as [ | | | | | | spec] eqn:Hplot;
    try (split; [discriminate
                | intros (d' & spec & Hd & Hspec & _); injection Hd as <-;
                  rewrite Hplot in Hspec; discriminate]).
  assert (Hcases :
    (_ ← detect_chart_type (VDict spec);
     _ ← match field d "timestamp" (VStr "N/A") with
         | VList _ | VDict _ => Raise TypeError
         | _ => Ok tt
         end;
     data ← get (VDict spec) "data" (VList []);
     _ ← len data;
     Ok tt) = Ok tt <->
    header_data (field spec "data" (VList [])) /\
    metric_value (field d "timestamp" (VStr "N/A"))).
  { rewrite <- header_data_checks.
    destruct (detect_chart_type (VDict spec)) as [label|e];
      [|split; [discriminate | intros [H _]; discriminate]].
    rewrite !bind_ok.
    destruct (field d "timestamp" (VStr "N/A")); cbn [metric_value];
      rewrite ?bind_ok; try tauto;
      (split; [discriminate | intros [_ []]]). }
  rewrite Hcases. split.
  - intros [Hdata Htime]. exists d, spec. rewrite Hplot. auto.
  - intros (d' & spec' & Hd & Hspec & Hdata & Htime). injection Hd as <-.
    rewrite Hplot in Hspec. injection Hspec as <-. split; assumption.
Qed.

(** A trace whose [type] is a number is skipped by the chart builder and
    stops the header. *)
Example header_stricter_than_chart :
  is_ok (plotly_from_metadata Lenient.plotly
           (VDict [("data", VList [VDict [("type", VInt 5)]])])) = true /\
  snd (UI.render_header
         (VDict [("plot", VDict [("data", VList [VDict [("type", VInt 5)]])])]))
  = Raise AttributeError.
Proof. split; reflexivity. Qed.

(** A timestamp that is a list stops the header at its metric. *)
Example header_timestamp_list :
  UI.render_header (VDict [("plot", VDict []); ("timestamp", VList [VInt 1])])
  = ([ (UI.Page, UI.Subheader (VStr "Unnamed Query"));
       (UI.Page, UI.Columns 3);
       (UI.Column 1, UI.Metric "Chart Type" (VStr "Unknown")) ],
     Raise TypeError).
Proof. reflexivity. Qed.

(** What a header that is drawn to the end has found in the entry. *)
Lemma render_header_ok (result : value) :
  snd (UI.render_header result) = Ok tt ->
  exists d label,
    result = VDict d /\
    detect_chart_type (field d "plot" (VDict [])) = Ok label.
Proof.
  destruct result as [ | | | | | | d]; try discriminate.
  rewrite render_header_snd.
  destruct (detect_chart_type (field d "plot" (VDict []))) as [label|e] eqn:Hlabel;
    [|discriminate].
  intros _. exists d, label. split; [reflexivity | exact Hlabel].
Qed.

(** ** Traces in the chart and in the header *)

Lemma traverse_length {A B} (f : A -> result B) (l : list A) (ys : list B) :
  traverse f l = Ok ys -> length ys = length l.
Proof.
  intros H. apply traverse_Forall2, Forall2_length in H. symmetry. exact H.
Qed.

(** X6.  A chart the builder returns never has more traces than [data] has
    entries, and it has as many exactly when every entry's [type] is one
    of ["bar"], ["line"], ["scatter"] and ["pie"]; the header's [Traces]
    metric is the number of entries of [data], so it counts the traces the
    chart leaves out. *)
Theorem traces_shown_and_counted (plotly : Plotly) (entry spec : Dict.t)
    (traces : list Dict.t) (layout : Dict.t) (fig : Figure) :
  Dict.lookup "plot" entry = Some (VDict spec) ->
  Dict.lookup "data" spec = Some (VList (map VDict traces)) ->
  plot_spec_shape spec traces layout ->
  plotly_from_metadata plotly (VDict spec) = Ok fig ->
  (length (fig_data fig) <= length traces)%nat /\
  (length (fig_data fig) = length traces <-> Forall supported traces) /\
  (snd (UI.render_header (VDict entry)) = Ok tt ->
   In (UI.Column 3, UI.Metric "Traces" (VInt (Z.of_nat (length traces))))
      (fst (UI.render_header (VDict entry)))).
Proof.
  intros Hplot Hdata Hshape Hfig.
  rewrite (plotly_from_metadata_shape _ _ _ _ Hshape) in Hfig.
  apply chart_ok in Hfig as [Hkept _]. apply traverse_length in Hkept.
  rewrite Hkept. destruct (contributions_length traces) as [Hle Heq].
  split; [exact Hle|]. split; [exact Heq|].
  intros Hheader. assert (Hrun := Hheader). rewrite render_header_snd in Hrun.
  assert (Hfield : field entry "plot" (VDict []) = VDict spec).
  { unfold field. rewrite Hplot. reflexivity. }
  rewrite Hfield in Hrun.
  destruct (detect_chart_type (VDict spec)) as [label|e] eqn:Hlabel; [|discriminate].
  rewrite bind_ok in Hrun.
  assert (Htime : metric_value (field entry "timestamp" (VStr "N/A"))).
  { destruct (field entry "timestamp" (VStr "N/A")); try exact I; discriminate. }
  rewrite (render_header_page entry label (VList (map VDict traces)) (length traces)).
  - right. right. right. right. left. reflexivity.
  - rewrite Hfield. exact Hlabel.
  - exact Htime.
  - rewrite Hfield, get_dict, Hdata. reflexivity.
  - cbn [len]. rewrite length_map. reflexivity.
Qed.

(** X6 at an entry with one bar and one trace of an unknown type. *)
Lemma traces_shown_and_counted_witness :
  (length
     (fig_data
        {| fig_data := [Bar VNone VNone VNone (VDict []) VNone (VStr "auto")];
           fig_layout :=
             [ ("template", VStr "plotly_dark");
               ("margin", VDict default_margin);
               ("title", VDict [("x", VFloat float_half)]) ] |}) <= 2)%nat /\
  In (UI.Column 3, UI.Metric "Traces" (VInt 2))
     (fst (UI.render_header
             (VDict [("plot", VDict [("data", VList (map VDict
                        [ [("type", VStr "bar")]; [("type", VStr "heatmap")] ]))])]))).
Proof.
  destruct (traces_shown_and_counted Lenient.plotly
              [("plot", VDict [("data", VList (map VDict
                  [ [("type", VStr "bar")]; [("type", VStr "heatmap")] ]))])]
              [("data", VList (map VDict
                  [ [("type", VStr "bar")]; [("type", VStr "heatmap")] ]))]
              [ [("type", VStr "bar")]; [("type", VStr "heatmap")] ] []
              {| fig_data := [Bar VNone VNone VNone (VDict []) VNone (VStr "auto")];
                 fig_layout :=
                   [ ("template", VStr "plotly_dark");
                     ("margin", VDict default_margin);
                     ("title", VDict [("x", VFloat float_half)]) ] |}
              eq_refl eq_refl)
    as (Hle & _ & Hmetric).
  - split; [left; reflexivity | repeat constructor | right; split; reflexivity].
  - reflexivity.
  - split; [exact Hle | exact (Hmetric eq_refl)].
Defined.

(** ** The tabs *)

Lemma render_tabs_metadata (d : Dict.t) (label : string) :
  detect_chart_type (field d "plot" (VDict [])) = Ok label ->
  UI.within (UI.Tab 2)
    (query ← UI.run (get (VDict d) "query" VNone);
     timestamp ← UI.run (get (VDict d) "timestamp" VNone);
     plot ← UI.run (get (VDict d) "plot" (VDict []));
     chart_type ← UI.run (detect_chart_type plot);
     UI.show UI.Page
       (UI.Json (VDict [("query", query); ("timestamp", timestamp);
                        ("chart_type", VStr chart_type)])))
  = ([(UI.Tab 2,
       UI.Json (VDict [("query", field d "query" VNone);
                       ("timestamp", field d "timestamp" VNone);
                       ("chart_type", VStr label)]))], Ok tt).
Proof.
  intros Hlabel. rewrite !get_dict, !ui_bind_run. fold (field d "plot" (VDict [])).
  rewrite Hlabel. reflexivity.
Qed.

Lemma render_tabs_ok (plotly : Plotly) (result : value) :
  snd (UI.render_header result) = Ok tt ->
  snd (UI.render_tabs plotly result) = Ok tt.
Proof.
  intros Hheader. destruct (render_header_ok _ Hheader) as (d & label & -> & Hlabel).
  destruct (render_visualization_shape plotly (VDict d)) as [shown Hviz].
  unfold UI.render_tabs.
  rewrite (render_tabs_metadata d label Hlabel), ui_bind_show. cbn [fst snd].
  unfold UI.within at 1. rewrite Hviz. reflexivity.
Qed.

(** X9.  Once the header of an entry has been drawn without an exception,
    drawing its tabs raises none either, whether the chart builds or not:
    the third tab shows the entry itself and the second its query,
    timestamp and chart type. *)
Theorem render_tabs_after_header (plotly : Plotly) (result : value) :
  snd (UI.render_header result) = Ok tt ->
  snd (UI.render_tabs plotly result) = Ok tt /\
  In (UI.Tab 3, UI.Json result) (fst (UI.render_tabs plotly result)) /\
  exists d label,
    result = VDict d /\
    detect_chart_type (field d "plot" (VDict [])) = Ok label /\
    In (UI.Tab 2,
        UI.Json (VDict [("query", field d "query" VNone);
                        ("timestamp", field d "timestamp" VNone);
                        ("chart_type", VStr label)]))
       (fst (UI.render_tabs plotly result)).
Proof.
  intros Hheader. destruct (render_header_ok _ Hheader) as (d & label & -> & Hlabel).
  destruct (render_visualization_shape plotly (VDict d)) as [shown Hviz].
  unfold UI.render_tabs.
  rewrite (render_tabs_metadata d label Hlabel), ui_bind_show. cbn [fst snd].
  unfold UI.within at 1. rewrite Hviz. cbn [fst snd].
  unfold mbind, UI.ui_bind. cbn [UI.within UI.show fst snd map app].
  split; [reflexivity|]. split.
  - right. apply in_or_app. right. right. left. reflexivity.
  - exists d, label. split; [reflexivity|]. split; [exact Hlabel|].
    right. apply in_or_app. right. left. reflexivity.
Qed.

(** X9 at an entry whose chart does not build: its layout is a number. *)
Lemma render_tabs_after_header_witness :
  snd (UI.render_tabs Lenient.plotly
         (VDict [("plot", VDict [("layout", VInt 5)])])) = Ok tt /\
  In (UI.Tab 3, UI.Json (VDict [("plot", VDict [("layout", VInt 5)])]))
     (fst (UI.render_tabs Lenient.plotly
             (VDict [("plot", VDict [("layout", VInt 5)])]))).
Proof.
  destruct (render_tabs_after_header Lenient.plotly
              (VDict [("plot", VDict [("layout", VInt 5)])]) eq_refl)
    as (Hok & Hjson & _).
  split; [exact Hok | exact Hjson].
Defined.

(** X10.  Having a [plot] key is all the loader asks of an entry.  An entry
    whose [plot] is not a mapping (a number, a string, null) is kept by the
    loader, and drawing its header raises [AttributeError] after the
    subheader and the columns are on the page. *)
Theorem render_header_plot_not_mapping (entry : Dict.t) (plot : value) :
  Dict.lookup "plot" entry = Some plot ->
  (forall d, plot <> VDict d) ->
  has_plot (VDict entry) = true /\
  UI.render_header (VDict entry)
  = ([(UI.Page, UI.Subheader (field entry "query" (VStr "Unnamed Query")));
      (UI.Page, UI.Columns 3)],
     Raise AttributeError).
Proof.
  intros Hplot Hnot. split.
  - unfold has_plot. simpl. unfold Dict.mem. rewrite Hplot. reflexivity.
  - unfold UI.render_header. rewrite !get_dict, Hplot, ui_bind_run, !ui_bind_show.
    rewrite ui_bind_run.
    destruct plot as [ | | | | | | d]; try reflexivity. destruct (Hnot d eq_refl).
Qed.

(** X10 at the entry [{"plot": 5}]. *)
Lemma render_header_plot_not_mapping_witness :
  has_plot (VDict [("plot", VInt 5)]) = true /\
  UI.render_header (VDict [("plot", VInt 5)])
  = ([(UI.Page, UI.Subheader (VStr "Unnamed Query")); (UI.Page, UI.Columns 3)],
     Raise AttributeError).
Proof.
  apply (render_header_plot_not_mapping [("plot", VInt 5)] (VInt 5) eq_refl).
  discriminate.
Defined.

(** ** The sidebar *)

Lemma filtered_indices_matching (results : list value) (search_term : string) :
  filtered_indices results search_term
  = (queries results ≫= fun qs => matching qs search_term).
Proof. reflexivity. Qed.

Lemma match_nonempty {X Y} (l : list X) (a b : Y) :
  l <> [] -> match l with [] => a | _ :: _ => b end = b.
Proof. destruct l; [contradiction | reflexivity]. Qed.

Lemma sublist_in {X} (l1 l2 : list X) (x : X) :
  sublist l1 l2 -> In x l1 -> In x l2.
Proof.
  induction 1 as [|y l1 l2 _ IH|y l1 l2 _ IH]; simpl; intuition.
Qed.

Lemma sublist_seq_lookup {X} (l : list X) (idx : list nat) (i : nat) :
  sublist idx (seq 0 (length l)) -> In i idx -> exists x, l !! i = Some x.
Proof.
  intros Hsub Hi. apply (sublist_in _ _ _ Hsub), in_seq in Hi.
  apply lookup_lt_is_Some. lia.
Qed.

(** X13.  When every query is a string and the select box returns one of
    its options, the sidebar raises nothing and returns what
    [render_sidebar] computes: the empty mapping when there is no result or
    no match, and otherwise an entry of the list, one whose query contains
    the search text, case ignored, if a text was typed.  Stated for a
    search text and queries that are ASCII text. *)
Theorem render_sidebar_selection (distinct : list value -> result nat)
    (search_term : string) (selectbox : list nat -> nat) (entries : list Dict.t) :
  Forall query_is_text entries ->
  is_ascii search_term = true ->
  Forall ascii_query entries ->
  picks_option selectbox ->
  (exists n, distinct (map (fun d => VStr (displayed d)) entries) = Ok n) ->
  exists r,
    snd (UI.render_sidebar distinct search_term selectbox (map VDict entries)) = Ok r /\
    render_sidebar search_term selectbox (map VDict entries) = Ok r /\
    ((r = VDict [] /\
      (entries = [] \/ filtered_indices (map VDict entries) search_term = Ok [])) \/
     (exists i d,
        entries !! i = Some d /\ r = VDict d /\
        (search_term <> "" ->
         substring (lower search_term) (lower (displayed d))))).
Proof.
  intros Htext _ _ Hpick [n Hn].
  assert (Hentries : entries = [] \/ map VDict entries <> []).
  { destruct entries; [left; reflexivity | right; discriminate]. }
  destruct Hentries as [-> | Hne].
  { exists (VDict []). split; [reflexivity|]. split; [reflexivity|]. left. auto. }
  destruct (filtered_indices_displayed entries search_term Htext)
    as (idx & Hrun & Hsub & _ & Hin).
  assert (Hmatching : matching (map (fun d => VStr (displayed d)) entries) search_term
                      = Ok idx).
  { rewrite filtered_indices_matching, (queries_displayed _ Htext) in Hrun.
    exact Hrun. }
  unfold UI.render_sidebar, render_sidebar.
  rewrite !(match_nonempty _ _ _ Hne), Hrun, bind_ok, ui_bind_show. cbn [snd].
  rewrite (queries_displayed _ Htext), ui_bind_run, ui_bind_show. cbn [snd].
  rewrite Hmatching, ui_bind_run.
  assert (Hidx : idx = [] \/ idx <> []).
  { destruct idx; [left; reflexivity | right; discriminate]. }
  destruct Hidx as [-> | Hsome].
  { exists (VDict []). split; [reflexivity|]. split; [reflexivity|]. left. auto. }
  rewrite !(match_nonempty _ _ _ Hsome).
  assert (Hchosen : In (selectbox idx) idx) by (apply Hpick, Hsome).
  destruct (sublist_seq_lookup entries idx _ Hsub Hchosen) as [d Hd].
  exists (VDict d).
  assert (Hlook : map VDict entries !! selectbox idx = Some (VDict d)).
  { rewrite list_lookup_fmap.
    transitivity (VDict <$> Some d); [f_equal; exact Hd | reflexivity]. }
  cbn [UI.metric].
  rewrite !ui_bind_show. cbn [snd]. rewrite Hn, ui_bind_run, ui_bind_show.
  cbn [snd UI.run]. rewrite Hlook.
  split; [reflexivity|]. split; [reflexivity|]. right.
  exists (selectbox idx), d. split; [exact Hd|]. split; [reflexivity|].
  intros Hterm. destruct (proj1 (Hin Hterm _) Hchosen) as [d' [Hd' Hs]].
  rewrite Hd in Hd'. injection Hd' as <-. exact Hs.
Qed.

Lemma first_option_picks : picks_option first_option.
Proof.
  intros [|i options] Hne; [contradiction | left; reflexivity].
Qed.

(** X13 at the example list of the specification and the text ["q2"]. *)
Lemma render_sidebar_selection_witness :
  exists r,
    snd (UI.render_sidebar distinct_texts "q2" first_option
           (map VDict [ [("query", VStr "Revenue Q1")];
                        [("query", VStr "Revenue Q2")] ])) = Ok r /\
    render_sidebar "q2" first_option
      (map VDict [ [("query", VStr "Revenue Q1")];
                   [("query", VStr "Revenue Q2")] ]) = Ok r /\
    r = VDict [("query", VStr "Revenue Q2")].
Proof.
  destruct (render_sidebar_selection distinct_texts "q2" first_option
              [ [("query", VStr "Revenue Q1")]; [("query", VStr "Revenue Q2")] ])
    as (r & Hui & Hplain & _).
  - repeat constructor.
  - reflexivity.
  - repeat constructor.
  - exact first_option_picks.
  - eexists. reflexivity.
  - exists r. split; [exact Hui|]. split; [exact Hplain|].
    injection Hplain as <-. reflexivity.
Defined.

(** ** The whole page *)

Lemma render_sidebar_returns (distinct : list value -> result nat)
    (search_term : string) (selectbox : list nat -> nat) (results : list value)
    (r : value) :
  snd (UI.render_sidebar distinct search_term selectbox results) = Ok r ->
  r = VDict [] \/ In r results.
Proof.
  unfold UI.render_sidebar. rewrite ui_bind_show. cbn [snd].
  destruct results as [|r0 rs].
  { intros H. left. injection H as <-. reflexivity. }
  rewrite ui_bind_run.
  destruct (queries (r0 :: rs)) as [qs|e]; [|discriminate].
  rewrite ui_bind_show. cbn [snd]. rewrite ui_bind_run.
  destruct (matching qs search_term) as [[|i idx]|e]; [| |discriminate].
  { intros H. left. injection H as <-. reflexivity. }
  cbn [UI.metric].
  rewrite !ui_bind_show. cbn [snd]. rewrite ui_bind_run.
  destruct (distinct qs) as [n|e]; [|discriminate].
  rewrite ui_bind_show. cbn [snd UI.run].
  destruct ((r0 :: rs) !! selectbox (i :: idx)) as [x|] eqn:Hx; [|discriminate].
  intros H. injection H as <-. right.
  apply list_elem_of_In, (list_elem_of_lookup_2 _ _ _ Hx).
Qed.

(** X15.  On a first run whose load succeeds, an entry the sidebar returns
    is one of the loaded entries and is always drawn: it has a [plot], so
    it is never taken for the empty mapping that means nothing is selected.
    The page is then the sidebar followed by the header of the entry; if
    the header raises, [main] raises the same exception there, and if not,
    the tabs follow without an exception, then the rule, the download of
    the whole loaded list, whatever was searched or selected, and the
    caption.  The loaded list is kept in the cache. *)
Theorem main_selected (plotly : Plotly) (fromisoformat : string -> option datetime)
    (distinct : list value -> result nat) (search_term : string)
    (selectbox : list nat -> nat) (fs : filesystem)
    (c : gmap string (list value)) (results : list value) (selected : value) :
  c !! PLOT_FILE = None ->
  load_results fromisoformat fs PLOT_FILE = Ok results ->
  snd (UI.render_sidebar distinct search_term selectbox results) = Ok selected ->
  selected <> VDict [] ->
  In selected results /\
  UI.main plotly fromisoformat distinct search_term selectbox fs c
  = ((fst (UI.render_sidebar distinct search_term selectbox results)
      ++ fst (UI.render_header selected)
      ++ match snd (UI.render_header selected) with
         | Ok _ =>
             fst (UI.render_tabs plotly selected)
             ++ [(UI.Page, UI.Markdown "---");
                 (UI.Page,
                  UI.DownloadButton "⬇ Download Full JSON" (to_json (VList results))
                    "ai_generated_plots.json" "application/json");
                 (UI.Page,
                  UI.Caption "AI Convolution Dashboard — Visualization Layer")]
         | Raise _ => []
         end,
      snd (UI.render_header selected)),
     <[PLOT_FILE := results]> c).
Proof.
  intros Hc Hload Hside Hsome.
  destruct (render_sidebar_returns _ _ _ _ _ Hside) as [-> | Hin];
    [destruct (Hsome eq_refl)|].
  split; [exact Hin|].
  destruct (load_results_invariant _ _ _ _ Hload) as (Hd & _ & Hplot & _).
  assert (Htruthy : truthy selected = true).
  { apply list_elem_of_In in Hin.
    destruct (proj1 (Forall_forall _ _) Hd _ Hin) as [d ->].
    assert (Hmem := proj1 (Forall_forall _ _) Hplot _ Hin).
    destruct d; [discriminate | reflexivity]. }
  unfold UI.main, load_results_cached. rewrite Hc, Hload. cbn [fst snd].
  f_equal. rewrite ui_bind_run.
  assert (Hresults : truthy (VList results) = true).
  { destruct results; [destruct Hin | reflexivity]. }
  rewrite Hresults. cbn [negb].
  rewrite (ui_bind_ok _ _ _ Hside), Htruthy. cbn [negb].
  f_equal.
  - f_equal. rewrite ui_bind_fst. f_equal.
    destruct (snd (UI.render_header selected)) as [[]|e] eqn:Hheader; [|reflexivity].
    rewrite (ui_bind_ok _ _ _ (render_tabs_ok plotly _ Hheader)). reflexivity.
  - rewrite ui_bind_snd.
    destruct (snd (UI.render_header selected)) as [[]|e] eqn:Hheader; [|reflexivity].
    rewrite (ui_bind_ok _ _ _ (render_tabs_ok plotly _ Hheader)). reflexivity.
Qed.

(** X15 at the example document of the specification, the text ["q2"]
    typed in the search box. *)
Lemma main_selected_witness :
  snd (fst (UI.main Lenient.plotly Iso.parse distinct_texts "q2" first_option
              (fun _ => Text (Some revenue_document)) ∅)) = Ok tt.
Proof.
  pose proof
    (main_selected Lenient.plotly Iso.parse distinct_texts "q2" first_option
       (fun _ => Text (Some revenue_document)) ∅
       [ VDict [("query", VStr "Revenue Q1");
                ("timestamp", VStr "2024-01-01T00:00:00");
                ("plot", VDict [("data", VList [VDict [("type", VStr "line")]])])];
         VDict [("query", VStr "Revenue Q2");
                ("plot", VDict [("data", VList [VDict [("type", VStr "bar")]])])] ]
       (VDict [("query", VStr "Revenue Q2");
               ("plot", VDict [("data", VList [VDict [("type", VStr "bar")]])])])
       (lookup_empty _) eq_refl eq_refl) as H.
  destruct H as [_ H]; [discriminate|].
  rewrite H. reflexivity.
Defined.

(** X16.  On a first run, a load that returns the empty list (the file is
    missing, or no element of it has a [plot]) shows the warning alone and
    keeps the empty list in the cache, so every later run shows the same
    warning whatever the file then contains; a load that raises makes
    [main] raise the same exception with nothing on the page, and keeps
    nothing, so the next run reads the file again. *)
Theorem main_without_data (plotly : Plotly) (fromisoformat : string -> option datetime)
    (distinct : list value -> result nat) (search_term : string)
    (selectbox : list nat -> nat) (fs : filesystem)
    (c : gmap string (list value)) :
  c !! PLOT_FILE = None ->
  (load_results fromisoformat fs PLOT_FILE = Ok [] ->
   UI.main plotly fromisoformat distinct search_term selectbox fs c
   = (([(UI.Page,
         UI.Warning "No plot metadata found. Waiting for AI-generated plots.")],
       Ok tt),
      <[PLOT_FILE := []]> c) /\
   forall (fs' : filesystem) (search_term' : string) (selectbox' : list nat -> nat),
     UI.main plotly fromisoformat distinct search_term' selectbox' fs'
       (<[PLOT_FILE := []]> c)
     = (([(UI.Page,
           UI.Warning "No plot metadata found. Waiting for AI-generated plots.")],
         Ok tt),
        <[PLOT_FILE := []]> c)) /\
  (forall e,
     load_results fromisoformat fs PLOT_FILE = Raise e ->
     UI.main plotly fromisoformat distinct search_term selectbox fs c
     = (([], Raise e), c)).
Proof.
  intros Hc. split.
  - intros Hload. split.
    + unfold UI.main, load_results_cached. rewrite Hc, Hload. reflexivity.
    + intros fs' search_term' selectbox'.
      unfold UI.main, load_results_cached. rewrite lookup_insert_eq. reflexivity.
  - intros e Hload. unfold UI.main, load_results_cached. rewrite Hc, Hload.
    reflexivity.
Qed.

(** X16 at a missing file, and then at the example document of the
    specification in its place. *)
Lemma main_without_data_witness :
  UI.main Lenient.plotly Iso.parse distinct_texts "" first_option (fun _ => Missing) ∅
  = (([(UI.Page,
        UI.Warning "No plot metadata found. Waiting for AI-generated plots.")],
      Ok tt),
     <[PLOT_FILE := []]> ∅) /\
  UI.main Lenient.plotly Iso.parse distinct_texts "" first_option
    (fun _ => Text (Some revenue_document)) (<[PLOT_FILE := []]> ∅)
  = (([(UI.Page,
        UI.Warning "No plot metadata found. Waiting for AI-generated plots.")],
      Ok tt),
     <[PLOT_FILE := []]> ∅).
Proof.
  destruct (proj1 (main_without_data Lenient.plotly Iso.parse distinct_texts ""
                     first_option (fun _ => Missing) ∅ (lookup_empty _)) eq_refl)
    as [Hfirst Hlater].
  split; [exact Hfirst|].
  exact (Hlater (fun _ => Text (Some revenue_document)) "" first_option).
Defined.

Example main_malformed_file (plotly : Plotly) :
  UI.main plotly Iso.parse distinct_texts "" first_option (fun _ => Text None) ∅
  = (([], Raise JSONDecodeError), ∅).
Proof. reflexivity. Qed.
